(** * universal-scraper: the conversation control core and its tools

    A shallow embedding of [src/agentscraper.py], [src/tools/firecrawl.py]
    and [src/tools/jinaai.py].  Python methods become functions in a small
    state-and-exception monad over the objects the program mutates; the
    remote collaborators (the chat provider, the HTTP fetch, the Firecrawl
    service, [json.loads], [str()] and the tokenizer) are fields of one
    record of oracles.  What the program prints and how long it waits
    between two attempts of a request are left out. *)

From stdpp Require Import base option list strings gmap.
From Stdlib Require Import ZArith Lia.

Set Warnings "-register-all".
Local Open Scope string_scope.
Local Open Scope list_scope.

(** ** Python values and exceptions *)

(** What [json.loads] produces: [None], booleans, numbers, [str], [list]
    and [dict] (a dict as its items, keys distinct, in insertion order). *)
Inductive json : Type :=
  | JNull
  | JBool (b : bool)
  | JNum (n : Z)
  | JStr (s : string)
  | JArr (items : list json)
  | JObj (members : list (string * json)).

(** A message's ["content"], and what [run] returns: [None] or a [str]. *)
Inductive pyval : Type :=
  | PyNone
  | PyStr (s : string).

#[global] Instance pyval_eq_dec : EqDecision pyval.
Proof. solve_decision. Defined.

(** The exception classes the code can meet. [ExternalError] stands for
    whatever a remote collaborator raises (a subclass of [Exception]). *)
Inductive exn : Type :=
  | ExternalError (who : string)
  | UnboundLocalError (var : string)
  | RetryError
  | IndexError
  | KeyError (key : string)
  | TypeError
  | ValueError
  | JSONDecodeError.

#[global] Instance exn_eq_dec : EqDecision exn.
Proof. solve_decision. Defined.

(** A call either returns or raises. *)
Inductive result (A : Type) : Type :=
  | Ret (a : A)
  | Raise (e : exn).
Arguments Ret {A} a.
Arguments Raise {A} e.

(** The double quote and the line feed, for the texts that hold them. *)
Definition dq : string := String (Ascii.ascii_of_nat 34) EmptyString.
Definition nl : string := String (Ascii.ascii_of_nat 10) EmptyString.

(** The lines of a text, joined by line feeds. *)
Fixpoint join_lines (lines : list string) : string :=
  match lines with
  | [] => EmptyString
  | [line] => line
  | line :: rest => line +:+ nl +:+ join_lines rest
  end.

(** f-string interpolation [f"{v}"] of a value that is [None] or a [str]. *)
Definition fmt (v : pyval) : string :=
  match v with
  | PyNone => "None"
  | PyStr s => s
  end.

(** [data[key]]: a dict gives the value or [KeyError]; a [str], a [list],
    a number, a boolean and [None] raise [TypeError] on a [str] index. *)
Fixpoint assoc (key : string) (members : list (string * json)) : option json :=
  match members with
  | [] => None
  | (k, v) :: rest => if decide (k = key) then Some v else assoc key rest
  end.

Definition getitem (data : json) (key : string) : result json :=
  match data with
  | JObj members =>
      match assoc key members with
      | Some v => Ret v
      | None => Raise (KeyError key)
      end
  | _ => Raise TypeError
  end.

(** [s == v] for a [str] [s]: true only for an equal [str]. *)
Definition str_eq (s : string) (v : json) : bool :=
  match v with
  | JStr t => bool_decide (s = t)
  | _ => false
  end.

(** [for x in v]: a list yields its items, a dict its keys, a [str] its
    characters; anything else is not iterable. *)
Definition py_iter (v : json) : result (list json) :=
  match v with
  | JArr items => Ret items
  | JObj members => Ret (map (fun kv => JStr (fst kv)) members)
  | JStr s => Ret (map (fun c => JStr (String c EmptyString)) (String.list_ascii_of_string s))
  | _ => Raise TypeError
  end.

(** ** Messages and provider responses *)

Record tool_call : Type := mkToolCall {
  tc_id : string;            (* tool_call.id *)
  tc_name : string;          (* tool_call.function.name *)
  tc_arguments : string      (* tool_call.function.arguments, undecoded *)
}.

#[global] Instance tool_call_eq_dec : EqDecision tool_call.
Proof. solve_decision. Defined.

(** A message dict. ["role"] and ["content"] are always present; the other
    keys are present ([Some]) only in the dict literals that write them.
    ["tool_calls"] holds [None] or a list when present. *)
Record message : Type := mkMessage {
  role : string;
  content : pyval;
  tool_calls : option (option (list tool_call));
  tool_call_id : option string;
  name : option string
}.

#[global] Instance message_eq_dec : EqDecision message.
Proof. solve_decision. Defined.

Record choice_message : Type := mkChoiceMessage {
  cm_content : pyval;
  cm_tool_calls : option (list tool_call)
}.

Record choice : Type := mkChoice {
  finish_reason : string;
  choice_msg : choice_message
}.

Record chat_completion : Type := mkCompletion {
  choices : list choice
}.

(** One entry of a tool-declaration list. *)
Record tool_definition : Type := mkToolDefinition {
  td_type : string;
  td_name : string;
  td_description : string;
  td_parameters : json
}.

(** The three call sites of [openai.chat.completions.create], each with
    the values that fill its arguments or its prompt template. *)
Inductive request : Type :=
  | ChatRequest (messages : list message) (tools : list tool_definition)
                (tool_choice : option string)
  | SummaryRequest (early_messages : list message)
  | SearchRequest (query entity_name : json) (search_result_str : string)
                  (data_keys_to_search : list string).

(** ** The fact store and the mutable objects *)

Record data_point : Type := mkDataPoint {
  dp_name : string;
  dp_value : json;          (* JNull is Python's None: still pending *)
  dp_reference : json
}.

Record world : Type := mkWorld {
  openai_log : list request;        (* calls of create so far, oldest first *)
  data_points : list data_point;    (* FireCrawlTools.data_points *)
  fc_links_scrapped : list string;  (* FireCrawlTools.links_scrapped *)
  jina_links_scrapped : list json   (* JinaAiTools.links_scrapped *)
}.

Definition set_openai_log (l : list request) (w : world) : world :=
  mkWorld l (data_points w) (fc_links_scrapped w) (jina_links_scrapped w).
Definition set_data_points (d : list data_point) (w : world) : world :=
  mkWorld (openai_log w) d (fc_links_scrapped w) (jina_links_scrapped w).
Definition set_fc_links (l : list string) (w : world) : world :=
  mkWorld (openai_log w) (data_points w) l (jina_links_scrapped w).
Definition set_jina_links (l : list json) (w : world) : world :=
  mkWorld (openai_log w) (data_points w) (fc_links_scrapped w) l.

(** The collaborators that are not code of this repository. *)
Record env : Type := mkEnv {
  self_model : string;                                   (* self.model *)
  openai_create : nat -> request -> result chat_completion;
      (* the outcome of the n-th call of create (n counted from 0) *)
  requests_get : string -> result string;                (* requests.get(u).text *)
  firecrawl_scrape_url : string -> result (option string);
      (* app.scrape_url(u): the dict's "markdown" entry when it has one *)
  firecrawl_search : json -> result string;              (* str(app.search(q, ...)) *)
  json_loads : string -> result json;                    (* json.loads *)
  py_str : json -> string;                               (* str(v) *)
  encoding_for_model : string -> result (list message -> result N)
      (* tiktoken.encoding_for_model(model): KeyError on a model name it
         does not know; otherwise the encoding, taken as the function that
         gives len(encoding.encode(str(messages))) for a history, or the
         ValueError of encode on a text that holds a special token *)
}.

(** [create] leaves one more entry in the log. *)
Definition log_request (req : request) (w : world) : world :=
  set_openai_log (openai_log w ++ [req]) w.

(** ** The monad of a method body *)

Definition M (A : Type) : Type := world -> result A * world.

Definition ret {A} (a : A) : M A := fun w => (Ret a, w).
Definition raise {A} (e : exn) : M A := fun w => (Raise e, w).
Definition bind {A B} (m : M A) (k : A -> M B) : M B :=
  fun w => match m w with
           | (Ret a, w1) => k a w1
           | (Raise e, w1) => (Raise e, w1)
           end.
Definition lift {A} (r : result A) : M A := fun w => (r, w).
Definition gets {A} (f : world -> A) : M A := fun w => (Ret (f w), w).
(** [try: body except Exception as e: handler] *)
Definition try_except {A} (body : M A) (handler : exn -> M A) : M A :=
  fun w => match body w with
           | (Ret a, w1) => (Ret a, w1)
           | (Raise e, w1) => handler e w1
           end.

Notation "x <- m ;; k" := (bind m (fun x => k))
  (at level 100, m at next level, right associativity).
Notation "m ;;; k" := (bind m (fun _ => k))
  (at level 100, right associativity).

(** [self.openai.chat.completions.create(...)], the one way to the chat
    provider, shared by the agent and by [FireCrawlTools]: the call is
    logged and the provider answers. *)
Definition create (E : env) (req : request) : M chat_completion :=
  fun w =>
    (openai_create E (length (openai_log w)) req, log_request req w).

(** ** tools/firecrawl.py *)

Module FireCrawlTools.
Section Methods.
Variable E : env.

(** [FireCrawlTools.__init__]: every requested name starts unset. *)
Definition init_data_points (names : list string) : list data_point :=
  map (fun dp => mkDataPoint dp JNull JNull) names.

(** [FireCrawlTools.scrape]: the fetch is guarded, a failure gives [None]. *)
Definition scrape (url : string) : M pyval :=
  fun w =>
    match firecrawl_scrape_url E url with
    | Raise e => (Ret PyNone, w)
    | Ret scraped_data =>
        let w1 := set_fc_links (fc_links_scrapped w ++ [url]) w in
        (Ret (PyStr (default "" scraped_data)), w1)
    end.

(** [get_data_points_to_search]: the names whose value [is None]. *)
Definition is_none (v : json) : bool :=
  match v with JNull => true | _ => false end.

Definition get_data_points_to_search (w : world) : list string :=
  map dp_name (filter (fun obj => is_none (dp_value obj) = true) (data_points w)).

(** The inner loop of [update_data], [for obj in self.data_points], for one
    [data].  The objects are mutated in place, so what was written before
    an exception stays written. *)
Fixpoint update_matching (data : json) (objs : list data_point)
  : result unit * list data_point :=
  match objs with
  | [] => (Ret tt, [])
  | obj :: rest =>
      match getitem data "name" with
      | Raise e => (Raise e, obj :: rest)
      | Ret n =>
          if str_eq (dp_name obj) n then
            match getitem data "value" with
            | Raise e => (Raise e, obj :: rest)
            | Ret v =>
                let obj1 := mkDataPoint (dp_name obj) v (dp_reference obj) in
                match getitem data "reference" with
                | Raise e => (Raise e, obj1 :: rest)
                | Ret r =>
                    let obj2 := mkDataPoint (dp_name obj1) (dp_value obj1) r in
                    let '(res, rest') := update_matching data rest in
                    (res, obj2 :: rest')
                end
            end
          else
            let '(res, rest') := update_matching data rest in
            (res, obj :: rest')
      end
  end.

(** The outer loop, [for data in data_to_update]. *)
Fixpoint for_each_data (items : list json) (objs : list data_point)
  : result unit * list data_point :=
  match items with
  | [] => (Ret tt, objs)
  | data :: rest =>
      match update_matching data objs with
      | (Ret _, objs1) => for_each_data rest objs1
      | (Raise e, objs1) => (Raise e, objs1)
      end
  end.

(** [FireCrawlTools.update_data] *)
Definition update_data (data_to_update : json) : M pyval :=
  fun w =>
    match py_iter data_to_update with
    | Raise e => (Raise e, w)
    | Ret items =>
        match for_each_data items (data_points w) with
        | (Ret _, objs) =>
            (Ret (PyStr ("updated data: " +:+ py_str E data_to_update)),
             set_data_points objs w)
        | (Raise e, objs) => (Raise e, set_data_points objs w)
        end
    end.

(** [FireCrawlTools.search]: nothing is guarded. *)
Definition search (query entity_name : json) : M pyval :=
  search_result_str <- lift (firecrawl_search E query) ;;
  data_keys_to_search <- gets get_data_points_to_search ;;
  response <- create E (SearchRequest query entity_name search_result_str
                                      data_keys_to_search) ;;
  match choices response with
  | [] => raise IndexError                       (* response.choices[0] *)
  | c :: _ => ret (cm_content (choice_msg c))
  end.

Definition get_links_scrapped (w : world) : list string := fc_links_scrapped w.
Definition get_data_points (w : world) : list data_point := data_points w.

End Methods.
End FireCrawlTools.

(** ** tools/jinaai.py *)

Module JinaAiTools.
Section Methods.
Variable E : env.

(** [JinaAiTools.scrape]: the fetch is not guarded.  ["https://r.jina.ai/"
    + url] needs a [str]. *)
Definition scrape (url : json) : M pyval :=
  match url with
  | JStr u =>
      fun w =>
        match requests_get E ("https://r.jina.ai/" +:+ u) with
        | Raise e => (Raise e, w)
        | Ret text =>
            (Ret (PyStr text), set_jina_links (jina_links_scrapped w ++ [url]) w)
        end
  | _ => raise TypeError
  end.

Definition get_links_scrapped (w : world) : list json := jina_links_scrapped w.

End Methods.
End JinaAiTools.

(** ** agentscraper.py *)

Module AgentScrapper.

(** *** Tool declarations *)

Definition string_property (description : string) : json :=
  JObj [("type", JStr "string"); ("description", JStr description)].

Definition update_data_declaration : tool_definition :=
  mkToolDefinition "function" "update_data"
    "Save data points found for later retrieval"
    (JObj [
      ("type", JStr "object");
      ("properties", JObj [
        ("data_to_update", JObj [
          ("type", JStr "array");
          ("description", JStr "The data points to update");
          ("items", JObj [
            ("type", JStr "object");
            ("description", JStr "The data point to update, should follow specific JSON format: {'name': 'xxx', 'value': 'yyy', 'reference': 'url'}");
            ("properties", JObj [
              ("name", string_property "The name of the data point");
              ("value", string_property "The value of the data point");
              ("reference", string_property "The reference URL of the data point")]);
            ("required", JArr [JStr "name"; JStr "value"; JStr "reference"])])])]);
      ("required", JArr [JStr "data_to_update"])]).

Definition scrape_declaration : tool_definition :=
  mkToolDefinition "function" "scrape" "Scrape a URL for information"
    (JObj [
      ("type", JStr "object");
      ("properties", JObj [
        ("url", string_property "The URL of the website to scrape")]);
      ("required", JArr [JStr "url"])]).

Definition search_declaration : tool_definition :=
  mkToolDefinition "function" "search"
    "Search the internet for information and related URLs"
    (JObj [
      ("type", JStr "object");
      ("properties", JObj [
        ("query", string_property "The query to search, should be a semantic search query as we are using AI to search");
        ("entity_name", string_property "The name of the entity that we are researching about")]);
      ("required", JArr [JStr "query"; JStr "entity_name"])]).

Definition scrape_tools : list tool_definition :=
  [update_data_declaration; scrape_declaration].

Definition search_tools : list tool_definition :=
  [update_data_declaration; search_declaration].

(** *** The dispatch table *)

(** The bound methods [get_tools_list] hands out. *)
Inductive tool : Type :=
  | JinaScrape             (* self.jina_ai_tools.scrape *)
  | FireCrawlSearch        (* self.fire_crawl_tools.search *)
  | FireCrawlUpdateData.   (* self.fire_crawl_tools.update_data *)

Definition get_tools_list : gmap string tool :=
  {[ "scrape" := JinaScrape;
     "search" := FireCrawlSearch;
     "update_data" := FireCrawlUpdateData ]}.

(** [tool_list[tool_name]]: a dict subscript, [KeyError] on a missing key. *)
Definition subscript (tool_list : gmap string tool) (tool_name : string)
  : result tool :=
  match tool_list !! tool_name with
  | Some t => Ret t
  | None => Raise (KeyError tool_name)
  end.

(** [if tool_to_call:] a bound method is truthy. *)
Definition truthy (t : tool) : bool := true.

Definition parameters (t : tool) : list string :=
  match t with
  | JinaScrape => ["url"]
  | FireCrawlSearch => ["query"; "entity_name"]
  | FireCrawlUpdateData => ["data_to_update"]
  end.

(** A call with [**tool_args]: the argument must be a mapping, every key a parameter
    and every parameter given; the values come back in parameter order. *)
Fixpoint lookup_all (params : list string) (members : list (string * json))
  : option (list json) :=
  match params with
  | [] => Some []
  | p :: rest =>
      match assoc p members, lookup_all rest members with
      | Some v, Some vs => Some (v :: vs)
      | _, _ => None
      end
  end.

Definition bind_kwargs (params : list string) (tool_args : json)
  : result (list json) :=
  match tool_args with
  | JObj members =>
      if forallb (fun kv => bool_decide (fst kv ∈ params)) members then
        match lookup_all params members with
        | Some vs => Ret vs
        | None => Raise TypeError
        end
      else Raise TypeError
  | _ => Raise TypeError
  end.

Definition user_message (c : string) : message :=
  mkMessage "user" (PyStr c) None None None.
Definition plan_message (c : pyval) : message :=
  mkMessage "assistant" c None None None.
Definition assistant_message (c : pyval) (tcs : option (list tool_call))
  : message :=
  mkMessage "assistant" c (Some tcs) None None.
Definition tool_message (id nm : string) (c : pyval) : message :=
  mkMessage "tool" c None (Some id) (Some nm).
Definition system_message (c : string) : message :=
  mkMessage "system" (PyStr c) None None None.

(** [needle in hay] on strings. *)
Fixpoint contains (needle hay : string) : bool :=
  String.prefix needle hay
  || match hay with
     | EmptyString => false
     | String _ rest => contains needle rest
     end.

(** [l.index(x)]: the first position holding a value equal to [x]. *)
Fixpoint index_of (x : message) (l : list message) : option nat :=
  match l with
  | [] => None
  | y :: rest => if decide (y = x) then Some 0 else S <$> index_of x rest
  end.

(** Early exit of [run] from inside its loops. *)
Inductive flow (A : Type) : Type :=
  | Go (a : A)
  | Return (v : pyval).
Arguments Go {A} a.
Arguments Return {A} v.

Inductive state : Type := running | finished.

(** *** print *)

Definition role_to_color : gmap string string :=
  {[ "system" := "red";
     "user" := "green";
     "assistant" := "blue";
     "tool" := "magenta" ]}.

(** What stands after the role on the printed line: the message's content
    or its tool calls. *)
Inductive shown : Type :=
  | ShowContent (c : pyval)
  | ShowToolCalls (tcs : list tool_call).

(** [print]: the role, the value interpolated after it, and the colour the
    line [f"{role}: {content}"] is printed in.  [message.get("tool_calls")]
    is truthy for a list that is not empty only. *)
Definition print (message : message) : string * shown * string :=
  let role := role message in
  let color := default "white" (role_to_color !! role) in
  let content :=
    if decide (role = "assistant") then
      match tool_calls message with
      | Some (Some (tc :: tcs)) => ShowToolCalls (tc :: tcs)
      | _ => ShowContent (content message)
      end
    else ShowContent (content message) in
  (role, content, color).

Section Methods.
Variable E : env.

Definition call_tool (t : tool) (tool_args : json) : M pyval :=
  args <- lift (bind_kwargs (parameters t) tool_args) ;;
  match t, args with
  | JinaScrape, [url] => JinaAiTools.scrape E url
  | FireCrawlSearch, [query; entity_name] =>
      FireCrawlTools.search E query entity_name
  | FireCrawlUpdateData, [data_to_update] =>
      FireCrawlTools.update_data E data_to_update
  | _, _ => raise TypeError
  end.

(** *** chat_request *)

(** Reading a local variable: unbound until its first assignment. *)
Definition read_local {A} (var : string) (v : option A) : M A :=
  match v with
  | Some a => ret a
  | None => raise (UnboundLocalError var)
  end.

(** The decorated function's own body.  [response] is assigned only when
    [create] returns, and the handler's f-string reads it. *)
Definition chat_request_body (messages : list message)
    (tool_definitions : list tool_definition) (tool_choice : option string)
  : M (option chat_completion) :=
  let response : option chat_completion := None in
  try_except
    (response <- create E
                   (ChatRequest messages tool_definitions tool_choice) ;;
     ret (Some response))
    (fun e =>
       (* print(colored(f"unable to generate chat response: {response}, error {e}", "red")) *)
       read_local "response" response ;;;
       ret None).

(** [tenacity.retry(stop=stop_after_attempt(n))] with the library's
    defaults: an attempt that returns ends the call with its value, an
    attempt that raises is followed by another one, and after the n-th
    failed attempt [RetryError] is raised ([reraise] is off). *)
Fixpoint retry {A} (attempts : nat) (f : M A) : M A :=
  match attempts with
  | 0 => raise RetryError
  | S n => try_except f (fun _ => retry n f)
  end.

Definition stop_after_attempt : nat := 3.

Definition chat_request (messages : list message)
    (tool_definitions : list tool_definition) (tool_choice : option string)
  : M (option chat_completion) :=
  retry stop_after_attempt
        (chat_request_body messages tool_definitions tool_choice).

(** *** optimise_messages *)

(** Lines 214-217: the tokenizer is the model's own when its name has
    ["gpt"] in it, and that of gpt-3.5-turbo otherwise. *)
Definition encoding_model : string :=
  if contains "gpt" (self_model E) then self_model E else "gpt-3.5-turbo".

Definition summary_intro : string :=
  "; Here is a summary of past actions taken so far: ".

Definition optimise_messages (messages : list message) : M (list message) :=
  match messages with
  | [] => raise IndexError                       (* messages[0] *)
  | first :: _ =>
      let system_prompt := content first in
      let model := encoding_model in
      encoding <- lift (encoding_for_model E model) ;;
      (* len(messages) > 24 or len(encoding.encode(str(messages))) > 10000:
         the right operand is evaluated only when the left one is false *)
      over <-
        (if bool_decide (24 < length messages) then ret true
         else
           n <- lift (encoding messages) ;;
           ret (bool_decide (10000 < n)%N)) ;;
      if over : bool then
        let latest_messages := drop (length messages - 12) messages in
        token_count_latest_messages <- lift (encoding latest_messages) ;;
        match latest_messages with
        | [] => raise IndexError                 (* latest_messages[0] *)
        | oldest :: _ =>
            match index_of oldest messages with
            | None => raise ValueError
            | Some index =>
                let early_messages := take index messages in
                try_except
                  (response <- create E
                                 (SummaryRequest early_messages) ;;
                   match choices response with
                   | [] => raise IndexError      (* response.choices[0] *)
                   | c :: _ =>
                       let summary := cm_content (choice_msg c) in
                       let system_prompt :=
                         fmt system_prompt +:+ summary_intro +:+ fmt summary in
                       ret (system_message system_prompt :: latest_messages)
                   end)
                  (fun e => ret messages)
            end
        end
      else ret messages
  end.

(** *** run *)

(** Lines 272-290: the plan request and the first history. *)
Definition seed_messages (prompt system_prompt : string)
    (tool_definitions : list tool_definition) (plan : bool)
  : M (flow (list message)) :=
  if plan then
    let messages :=
      [user_message (system_prompt +:+ " " +:+ prompt
                     +:+ " Let's think step by step, make a plan first")] in
    chat_response <- chat_request messages tool_definitions None ;;
    match chat_response with
    | None => ret (Return PyNone)
    | Some r =>
        match choices r with
        | [] => raise IndexError
        | c :: _ =>
            ret (Go [user_message (system_prompt +:+ " " +:+ prompt);
                     plan_message (cm_content (choice_msg c))])
        end
    end
  else ret (Go [user_message (system_prompt +:+ " " +:+ prompt)]).

(** Lines 313-329: [for tool_call in tool_calls]. *)
Fixpoint for_tool_calls (tcs : list tool_call) (messages : list message)
  : M (flow (list message)) :=
  match tcs with
  | [] => ret (Go messages)
  | tool_call :: rest =>
      let tool_name := tc_name tool_call in
      tool_args <- lift (json_loads E (tc_arguments tool_call)) ;;
      let tool_list := get_tools_list in
      tool_to_call <- lift (subscript tool_list tool_name) ;;
      if truthy tool_to_call then
        result <- call_tool tool_to_call tool_args ;;
        for_tool_calls rest
          (messages ++ [tool_message (tc_id tool_call) tool_name result])
      else
        ret (Return PyNone)
  end.

(** Lines 298-334: one pass of the [while] body once [chat_request] has
    returned.  [optimise_messages] runs in the [else] branch only. *)
Definition turn (chat_response : option chat_completion)
    (messages : list message) : M (flow (state * list message)) :=
  match chat_response with
  | None => ret (Go (finished, messages))
  | Some r =>
      match choices r with
      | [] => raise IndexError
      | current_choice :: _ =>
          let reply := choice_msg current_choice in
          let messages :=
            messages ++ [assistant_message (cm_content reply)
                                           (cm_tool_calls reply)] in
          after_tools <-
            (if decide (finish_reason current_choice = "tool_calls") then
               match cm_tool_calls reply with
               | None => raise TypeError         (* for ... in None *)
               | Some tcs => for_tool_calls tcs messages
               end
             else ret (Go messages)) ;;
          match after_tools with
          | Return v => ret (Return v)
          | Go messages =>
              let state :=
                if decide (finish_reason current_choice = "stop")
                then finished else running in
              messages <- optimise_messages messages ;;
              ret (Go (state, messages))
          end
      end
  end.

(** [return messages[-1]["content"]] *)
Definition last_content (messages : list message) : result pyval :=
  match last messages with
  | None => Raise IndexError
  | Some m => Ret (content m)
  end.

(** The [while state == "running"] loop; [None] when [fuel] passes are not
    enough to leave it. *)
Fixpoint while_running (fuel : nat) (tool_definitions : list tool_definition)
    (messages : list message) (w : world) : option (result pyval * world) :=
  match fuel with
  | 0 => None
  | S fuel' =>
      match (chat_response <- chat_request messages tool_definitions None ;;
             turn chat_response messages) w with
      | (Raise e, w1) => Some (Raise e, w1)
      | (Ret (Return v), w1) => Some (Ret v, w1)
      | (Ret (Go (running, messages)), w1) =>
          while_running fuel' tool_definitions messages w1
      | (Ret (Go (finished, messages)), w1) =>
          Some (last_content messages, w1)
      end
  end.

Definition run (fuel : nat) (prompt system_prompt : string)
    (tool_definitions : list tool_definition) (plan : bool) (w : world)
  : option (result pyval * world) :=
  match seed_messages prompt system_prompt tool_definitions plan w with
  | (Raise e, w1) => Some (Raise e, w1)
  | (Ret (Return v), w1) => Some (Ret v, w1)
  | (Ret (Go messages), w1) =>
      while_running fuel tool_definitions messages w1
  end.

(** *** website_search and internet_search *)

Definition website_system_prompt : string :=
  join_lines
    ["";
     "      you are a world class web scraper, you are great at finding information on urls;";
     "";
     "      You will keep scraping url based on information you received until information is found;";
     "";
     "      If you can't find relevant information from the company's domain related urls, ";
     "      Whenever you found certain data point, use " +:+ dq +:+ "update_data" +:+ dq +:+ " function to save the data point;";
     "      ";
     "      You only answer questions based on results from scraper, do not make things up;";
     "      ";
     "      You NEVER ask user for inputs or permissions, just go ahead do the best thing possible without asking for permission or guidance from user;";
     "    "].

Definition internet_system_prompt : string :=
  join_lines
    ["";
     "      you are a world class web researcher, you are great at finding information on the internet;";
     "      You will keep scraping url based on information you received until information is found;";
     "";
     "      You will try as hard as possible to search for all sorts of different query & source to find information; ";
     "      if one search query didn't return any result, try another one; ";
     "      You do not stop until all information are found, it is very important we find all information, I will give you $100, 000 tip if you find all information;";
     "      Whenever you found certain data point, use " +:+ dq +:+ "update_data" +:+ dq +:+ " function to save the data point;";
     "      ";
     "      You only answer questions based on results from scraper, do not make things up;";
     "      You never ask user for inputs or permissions, you just do your job and provide the results;";
     "      You ONLY run 1 function at a time, do NEVER run multiple functions at the same time";
     "    "].

(** [website_search]: the scrape tool set, plan first. *)
Definition website_search (fuel : nat) (entity_name website : string)
    (w : world) : option (result pyval * world) :=
  let data_points_to_search := FireCrawlTools.get_data_points_to_search w in
  let system_prompt := website_system_prompt in
  let prompt :=
    join_lines
      ["";
       "      Entity to search: "]
    +:+ entity_name
    +:+ join_lines
      ["";
       "";
       "      Website to search: "]
    +:+ website
    +:+ join_lines
      ["";
       "";
       "      Data points to search: "]
    +:+ py_str E (JArr (map JStr data_points_to_search))
    +:+ join_lines
      ["";
       "";
       "      Search only the data points that are not found yet and are in the data points to search list.";
       "      Stop if all data points are found.";
       "      Stop if no data points are found in search list.";
       "      Need not search for data points that are already found.";
       "    "] in
  run fuel prompt system_prompt scrape_tools true w.

(** [internet_search]: the search tool set, no plan. *)
Definition internet_search (fuel : nat) (entity_name : string) (w : world)
  : option (result pyval * world) :=
  let data_points_to_search := FireCrawlTools.get_data_points_to_search w in
  let system_prompt := internet_system_prompt in
  let prompt :=
    join_lines
      ["";
       "      Entity to search: "]
    +:+ entity_name
    +:+ join_lines
      ["";
       "";
       "      Links we already scraped: "]
    +:+ py_str E (JArr (map JStr (FireCrawlTools.get_links_scrapped w)))
    +:+ join_lines
      ["";
       "";
       "      Data points to search: "]
    +:+ py_str E (JArr (map JStr data_points_to_search))
    +:+ join_lines
      ["";
       "      ";
       "      Search only the data points that are not found yet and are in the data points to search list.";
       "      Stop if all data points are found.";
       "      Stop if no data points are found in search list.";
       "      Need not search for data points that are already found.";
       "    "] in
  run fuel prompt system_prompt search_tools false w.

End Methods.
End AgentScrapper.

(** ** app.py *)

Module App.

Definition GPT_MODEL : string := "gpt-4o".

Definition data_points : list string :=
  ["company_name"; "company_description"; "company_location";
   "company_founded"; "company_founder"; "company_investors";
   "company_revenue"; "company_industry"; "company_contact";
   "company_board_members"].

Definition entity_name : string := "Grafo Technologies".
Definition website : string := "https://grafotechnologies.com/".

(** The script for any list of names: fresh tools, the site search, the
    open-web search, then the report of [get_data_points()].  An exception
    of either search ends the script.  [fuel1] and [fuel2] bound the two
    loops. *)
Definition research (E : env) (fuel1 fuel2 : nat) (names : list string)
    (entity website : string)
  : option (result (list data_point) * world) :=
  let w0 := mkWorld [] (FireCrawlTools.init_data_points names) [] [] in
  match AgentScrapper.website_search E fuel1 entity website w0 with
  | None => None
  | Some (Raise e, w1) => Some (Raise e, w1)
  | Some (Ret _, w1) =>
      match AgentScrapper.internet_search E fuel2 entity w1 with
      | None => None
      | Some (Raise e, w2) => Some (Raise e, w2)
      | Some (Ret _, w2) => Some (Ret (FireCrawlTools.get_data_points w2), w2)
      end
  end.

Definition main (E : env) (fuel1 fuel2 : nat)
  : option (result (list data_point) * world) :=
  research E fuel1 fuel2 data_points entity_name website.

End App.

(** * Vocabulary of the statements *)

(** A record of the argument type [update_data] documents,
    [[{"name": "xxx", "value": "yyy", "reference": "url"}]], and the
    dict [json.loads] builds for it. *)
Record fact_record : Type := mkFact {
  fr_name : string;
  fr_value : json;
  fr_reference : json
}.

Definition record_json (r : fact_record) : json :=
  JObj [("name", JStr (fr_name r));
        ("value", fr_value r);
        ("reference", fr_reference r)].

Definition records_json (recs : list fact_record) : json :=
  JArr (map record_json recs).

(** What one record does to one data point. *)
Definition overwrite (r : fact_record) (obj : data_point) : data_point :=
  if bool_decide (dp_name obj = fr_name r)
  then mkDataPoint (dp_name obj) (fr_value r) (fr_reference r)
  else obj.

(** An input item from which [update_data] can read the three keys: a
    dict that has ["name"], ["value"] and ["reference"], whatever they
    hold and whatever else it has. *)
Definition has_keys (data : json) : Prop :=
  exists n v r,
    getitem data "name" = Ret n
    /\ getitem data "value" = Ret v
    /\ getitem data "reference" = Ret r.

(** The messages the summary request is about (lines 220-225). *)
Definition early_messages (messages : list message) : list message :=
  match drop (length messages - 12) messages with
  | [] => []
  | oldest :: _ =>
      take (default 0 (AgentScrapper.index_of oldest messages)) messages
  end.

(** [len(encoding.encode(str(messages)))] with the tokenizer of
    [optimise_messages]: the estimate, or the exception of the tokenizer. *)
Definition token_estimate (E : env) (messages : list message) : result N :=
  match encoding_for_model E (AgentScrapper.encoding_model E) with
  | Ret encoding => encoding messages
  | Raise e => Raise e
  end.

(** Either threshold of line 219 is exceeded: more than 24 messages, or
    an estimate of more than 10,000 tokens. *)
Definition over_budget (E : env) (messages : list message) : Prop :=
  24 < length messages
  ∨ (exists n, token_estimate E messages = Ret n /\ (10000 < n)%N).

(** Lines 217-221 run through and compaction starts: the tokenizer of the
    model is found, a threshold is exceeded, and the tokens of the
    retained messages are counted. *)
Definition compaction_starts (E : env) (messages : list message) : Prop :=
  (exists encoding, encoding_for_model E (AgentScrapper.encoding_model E) = Ret encoding)
  /\ over_budget E messages
  /\ (exists k, token_estimate E (drop (length messages - 12) messages) = Ret k).

(** Lines 217-221 raise: the tokenizer raises where the history is
    counted (the model is not known to it, or the text is refused), or,
    once a threshold is exceeded, where the retained messages are. *)
Definition tokenizer_raises (E : env) (messages : list message) (e : exn) : Prop :=
  (length messages <= 24 /\ token_estimate E messages = Raise e)
  \/ (over_budget E messages
      /\ token_estimate E (drop (length messages - 12) messages) = Raise e).

(** What a compaction that has started gives: one summary request, whose
    outcome decides (lines 240-255). *)
Definition compacted (E : env) (messages : list message) (w : world)
  : result (list message) * world :=
  ( match openai_create E (length (openai_log w))
            (SummaryRequest (early_messages messages)) with
    | Ret r =>
        match choices r with
        | c :: _ =>
            Ret (AgentScrapper.system_message
                   (fmt (default PyNone (content <$> head messages))
                    +:+ AgentScrapper.summary_intro
                    +:+ fmt (cm_content (choice_msg c)))
                 :: drop (length messages - 12) messages)
        | [] => Ret messages
        end
    | Raise _ => Ret messages
    end,
    log_request (SummaryRequest (early_messages messages)) w ).

(** [optimise_messages] makes the summary request [req]. *)
Definition summary_request_made (E : env) (messages : list message)
    (w : world) (req : request) : Prop :=
  openai_log (snd (AgentScrapper.optimise_messages E messages w))
  = openai_log w ++ [req].

(** The summarization [try] block ends in its handler: [create] raised, or
    the response has no [choices[0]]. *)
Definition summary_failed (o : result chat_completion) : Prop :=
  match o with
  | Raise _ => True
  | Ret r => choices r = []
  end.


(** A request that gives the model no tool access: it carries no tool
    declaration, or switches tool use off with [tool_choice="none"]. *)
Definition no_tool_access (req : request) : Prop :=
  match req with
  | ChatRequest _ tools tool_choice => tools = [] ∨ tool_choice = Some "none"
  | _ => True
  end.

(** The request [run] makes for a plan (lines 275-281). *)
Definition plan_request (prompt system_prompt : string)
    (tool_definitions : list tool_definition) : request :=
  ChatRequest
    [AgentScrapper.user_message
       (system_prompt +:+ " " +:+ prompt
        +:+ " Let's think step by step, make a plan first")]
    tool_definitions None.

(** How the mutable objects of one state relate to those of a later one:
    the request log and the list of links scraped through Jina have only
    grown, the data points have the names they had, in the same order,
    and the list of links of [FireCrawlTools] is as it was. *)
Definition evolves (w w' : world) : Prop :=
  openai_log w `prefix_of` openai_log w'
  /\ map dp_name (data_points w') = map dp_name (data_points w)
  /\ fc_links_scrapped w' = fc_links_scrapped w
  /\ jina_links_scrapped w `prefix_of` jina_links_scrapped w'.

(** A method body under which every state evolves. *)
Definition steady {A} (m : M A) : Prop := forall w, evolves w (snd (m w)).

(** * Scenarios

    Concrete collaborators and histories on which the statements below are
    instantiated. *)

Module Scenario.
Import AgentScrapper.

(** The text [{"url": "https://x.test"}]. *)
Definition url_arguments : string :=
  "{" +:+ dq +:+ "url" +:+ dq +:+ ": " +:+ dq +:+ "https://x.test" +:+ dq +:+ "}".

(** The text [{"data_to_update": [{"name": "company_founded",
    "value": "2019", "reference": "https://x.test"}]}]. *)
Definition founded_arguments : string :=
  "{" +:+ dq +:+ "data_to_update" +:+ dq +:+ ": [{"
  +:+ dq +:+ "name" +:+ dq +:+ ": " +:+ dq +:+ "company_founded" +:+ dq +:+ ", "
  +:+ dq +:+ "value" +:+ dq +:+ ": " +:+ dq +:+ "2019" +:+ dq +:+ ", "
  +:+ dq +:+ "reference" +:+ dq +:+ ": " +:+ dq +:+ "https://x.test" +:+ dq
  +:+ "}]}".

Definition founded_record : fact_record :=
  mkFact "company_founded" (JStr "2019") (JStr "https://x.test").

(** [json.loads] on the three texts the scenarios use. *)
Definition loads (text : string) : result json :=
  if decide (text = "{}") then Ret (JObj [])
  else if decide (text = url_arguments) then
    Ret (JObj [("url", JStr "https://x.test")])
  else if decide (text = founded_arguments) then
    Ret (JObj [("data_to_update", records_json [founded_record])])
  else Raise JSONDecodeError.

(** A provider that answers its n-th call with the n-th script entry and
    fails once the script is over. *)
Definition scripted (script : list (result chat_completion))
  : nat -> request -> result chat_completion :=
  fun n _ => default (Raise (ExternalError "openai")) (script !! n).

(** A tokenizer that knows every model and counts 1000 tokens a message. *)
Definition tokens (_ : string) : result (list message -> result N) :=
  Ret (fun messages => Ret (1000 * N.of_nat (length messages))%N).

(** A tokenizer that, like tiktoken, refuses a text holding the special
    token [<|endoftext|>]. *)
Definition special : string := "<|endoftext|>".

Definition holds_special (m : message) : bool :=
  match content m with
  | PyStr text => contains special text
  | PyNone => false
  end.

Definition strict_tokens (_ : string) : result (list message -> result N) :=
  Ret (fun messages =>
         if existsb holds_special messages then Raise ValueError
         else Ret (1000 * N.of_nat (length messages))%N).

(** The provider is down and the tokenizer is strict. *)
Definition strict : env :=
  mkEnv "gpt-4o" (fun _ _ => Raise (ExternalError "openai"))
        (fun _ => Raise (ExternalError "requests"))
        (fun _ => Raise (ExternalError "firecrawl"))
        (fun _ => Raise (ExternalError "firecrawl"))
        (fun _ => Raise JSONDecodeError) (fun _ => "[...]") strict_tokens.

(** The network is down, Firecrawl is down. *)
Definition offline (script : list (result chat_completion)) : env :=
  mkEnv "gpt-4o" (scripted script)
        (fun _ => Raise (ExternalError "requests"))
        (fun _ => Raise (ExternalError "firecrawl"))
        (fun _ => Raise (ExternalError "firecrawl"))
        loads (fun _ => "[...]") tokens.

Definition fresh (names : list string) : world :=
  mkWorld [] (FireCrawlTools.init_data_points names) [] [].

Definition reply (reason : string) (text : pyval)
    (tcs : option (list tool_call)) : result chat_completion :=
  Ret (mkCompletion [mkChoice reason (mkChoiceMessage text tcs)]).

(** A history of [n] distinct user messages. *)
Definition history (n : nat) : list message :=
  map (fun k => user_message (String (Ascii.ascii_of_nat (65 + k)) EmptyString))
      (seq 0 n).

(** The pages can be fetched and Firecrawl answers. *)
Definition online (script : list (result chat_completion)) : env :=
  mkEnv "gpt-4o" (scripted script)
        (fun _ => Ret "# page")
        (fun _ => Ret (Some "# page"))
        (fun _ => Ret "[results]")
        loads (fun _ => "[...]") tokens.

(** A provider that answers every request with a reply cut short. *)
Definition cut_short : chat_completion :=
  mkCompletion [mkChoice "length" (mkChoiceMessage (PyStr "and then") None)].

Definition stubborn : env :=
  mkEnv "gpt-4o" (fun _ _ => Ret cut_short)
        (fun _ => Raise (ExternalError "requests"))
        (fun _ => Raise (ExternalError "firecrawl"))
        (fun _ => Raise (ExternalError "firecrawl"))
        loads (fun _ => "[...]") tokens.

(** The model stores one fact and stops. *)
Definition update_then_stop : env :=
  offline
    [reply "tool_calls" PyNone
       (Some [mkToolCall "call_1" "update_data" founded_arguments]);
     reply "stop" (PyStr "Done") None].

(** Where a loop that ended has ended. *)
Definition final_result (o : option (result pyval * world)) : result pyval :=
  match o with
  | Some (res, _) => res
  | None => Raise RetryError
  end.

Definition final_world {A} (o : option (result A * world)) (w : world) : world :=
  match o with
  | Some (_, w') => w'
  | None => w
  end.

(** Three answers without a tool call: a plan, the end of the site search
    and the end of the open-web search. *)
Definition three_stops : env :=
  offline [reply "stop" (PyStr "the plan") None;
           reply "stop" (PyStr "site done") None;
           reply "stop" (PyStr "web done") None].

(** Fourteen messages of which the third repeats the first. *)
Definition echo_history : list message :=
  user_message "A" :: user_message "B" :: history 12.

End Scenario.

(** * The fact store: [update_data] *)

Section FactStore.
Import FireCrawlTools.








Lemma overwrite_name r obj : dp_name (overwrite r obj) = dp_name obj.
Proof. unfold overwrite. now case_bool_decide. Qed.


Lemma foldl_overwrite_names recs : forall objs,
  map dp_name (foldl (fun acc r => map (overwrite r) acc) objs recs)
  = map dp_name objs.
Proof.
  induction recs as [|r recs IH]; intros objs; cbn [foldl]; [reflexivity|].
  rewrite IH, map_map. apply map_ext. intros; apply overwrite_name.
Qed.




Lemma update_matching_names data : forall objs,
  map dp_name (snd (update_matching data objs)) = map dp_name objs.
Proof.
  induction objs as [|obj rest IH]; [reflexivity|].
  cbn [update_matching].
  destruct (getitem data "name") as [n|e]; [|reflexivity].
  destruct (str_eq (dp_name obj) n).
  - destruct (getitem data "value") as [v|e]; [|reflexivity].
    destruct (getitem data "reference") as [r|e]; [|reflexivity].
    destruct (update_matching data rest) as [res rest'].
    cbn in *. now rewrite IH.
  - destruct (update_matching data rest) as [res rest'].
    cbn in *. now rewrite IH.
Qed.

Lemma for_each_data_names items : forall objs,
  map dp_name (snd (for_each_data items objs)) = map dp_name objs.
Proof.
  induction items as [|data items IH]; intros objs; [reflexivity|].
  cbn [for_each_data].
  pose proof (update_matching_names data objs) as Hn.
  destruct (update_matching data objs) as [[[]|e] objs1]; cbn in Hn.
  - now rewrite IH.
  - exact Hn.
Qed.

(** Whatever the argument is, and whether the call returns or raises, the
    data points keep their names and their order. *)
Lemma update_data_names E data_to_update w :
  map dp_name (data_points (snd (update_data E data_to_update w)))
  = map dp_name (data_points w).
Proof.
  unfold update_data.
  destruct (py_iter data_to_update) as [items|e]; [|reflexivity].
  pose proof (for_each_data_names items (data_points w)) as Hn.
  destruct (for_each_data items (data_points w)) as [[[]|e] objs]; exact Hn.
Qed.

(** One input item against the store: every data point keeps its place
    and its name, and is touched only when the item's ["name"] is its
    name.  This holds of the objects left behind when the loop raises. *)
Lemma update_matching_frame data : forall objs i obj,
  objs !! i = Some obj ->
  exists obj',
    snd (update_matching data objs) !! i = Some obj'
    /\ dp_name obj' = dp_name obj
    /\ (getitem data "name" <> Ret (JStr (dp_name obj)) -> obj' = obj).
Proof.
  induction objs as [|o rest IH]; intros i obj Hi; [discriminate|].
  cbn [update_matching].
  destruct (getitem data "name") as [n|e] eqn:Hn; [|cbn; eauto].
  destruct (str_eq (dp_name o) n) eqn:Hm.
  - assert (n = JStr (dp_name o)) as ->.
    { unfold str_eq in Hm. destruct n; try discriminate.
      apply bool_decide_eq_true in Hm. now subst. }
    destruct (getitem data "value") as [v|e]; [|cbn; eauto].
    destruct (getitem data "reference") as [r|e].
    + specialize (IH (pred i) obj).
      destruct (update_matching data rest) as [res rest']. cbn [snd] in *.
      destruct i as [|i]; cbn in Hi |- *.
      * injection Hi as <-. eexists. split; [reflexivity|]. split; [reflexivity|].
        intros H. now contradiction H.
      * exact (IH Hi).
    + cbn [snd]. destruct i as [|i]; cbn in Hi |- *; [|eauto].
      injection Hi as <-. eexists. split; [reflexivity|]. split; [reflexivity|].
      intros H. now contradiction H.
  - specialize (IH (pred i) obj).
    destruct (update_matching data rest) as [res rest']. cbn [snd] in *.
    destruct i as [|i]; cbn in Hi |- *; [|exact (IH Hi)].
    injection Hi as <-. eauto.
Qed.

Lemma for_each_data_frame items : forall objs i obj,
  objs !! i = Some obj ->
  exists obj',
    snd (for_each_data items objs) !! i = Some obj'
    /\ dp_name obj' = dp_name obj
    /\ ((forall data, data ∈ items ->
           getitem data "name" <> Ret (JStr (dp_name obj))) ->
        obj' = obj).
Proof.
  induction items as [|data items IH]; intros objs i obj Hi; [cbn; eauto|].
  cbn [for_each_data].
  destruct (update_matching_frame data objs i obj Hi) as (o1 & H1 & Hn1 & Hs1).
  destruct (update_matching data objs) as [[[]|e] objs1]; cbn [snd] in *.
  - destruct (IH objs1 i o1 H1) as (o2 & H2 & Hn2 & Hs2).
    exists o2. split; [exact H2|]. split; [congruence|].
    intros Hun. rewrite Hs2.
    + apply Hs1, Hun. left.
    + intros d Hd. rewrite Hn1. apply Hun. now right.
  - exists o1. split; [exact H1|]. split; [exact Hn1|].
    intros Hun. apply Hs1, Hun. left.
Qed.

Lemma update_matching_complete data : forall objs,
  has_keys data -> fst (update_matching data objs) = Ret tt.
Proof.
  intros objs (n & v & r & Hn & Hv & Hr).
  induction objs as [|o rest IH]; [reflexivity|].
  cbn [update_matching]. rewrite Hn, Hv, Hr.
  destruct (update_matching data rest) as [res rest']. cbn [fst] in IH.
  now destruct (str_eq (dp_name o) n).
Qed.

Lemma for_each_data_complete items : forall objs,
  Forall has_keys items -> fst (for_each_data items objs) = Ret tt.
Proof.
  induction items as [|data items IH]; intros objs H; [reflexivity|].
  apply Forall_cons in H as [Hd Hi]. cbn [for_each_data].
  pose proof (update_matching_complete data objs Hd) as Hm.
  destruct (update_matching data objs) as [[[]|e] objs1]; [|discriminate].
  now apply IH.
Qed.

(** C9 as stated fails: not every call returns the confirmation string.
    A record without a reference, for a name the store holds, raises
    [KeyError]; the value has been written by then. *)
Lemma update_data_incomplete_record_raises :
  update_data (Scenario.offline [])
    (JArr [JObj [("name", JStr "company_founded"); ("value", JStr "2019")]])
    (Scenario.fresh ["company_founded"])
  = (Raise (KeyError "reference"),
     set_data_points [mkDataPoint "company_founded" (JStr "2019") JNull]
       (Scenario.fresh ["company_founded"]))
  /\ forall text,
       fst (update_data (Scenario.offline [])
              (JArr [JObj [("name", JStr "company_founded");
                           ("value", JStr "2019")]])
              (Scenario.fresh ["company_founded"]))
       <> Ret (PyStr text).
Proof. split; [reflexivity|discriminate]. Qed.

(** C9 (amended). For every call of [update_data], whatever the argument
    and whether the call returns or raises: the list of data-point names
    is as it was; at every position the name field is kept; a data point
    whose name is the ["name"] of no input item is left exactly as it was;
    and nothing else of the state is touched.  When the argument is a list
    whose items all have the keys ["name"], ["value"] and ["reference"],
    the call returns the confirmation string, whether or not an item
    matched a data point. *)
Theorem update_data_frame E (data_to_update : json) (w : world) :
  let out := update_data E data_to_update w in
  map dp_name (data_points (snd out)) = map dp_name (data_points w)
  /\ (forall i obj,
        data_points w !! i = Some obj ->
        exists obj',
          data_points (snd out) !! i = Some obj'
          /\ dp_name obj' = dp_name obj
          /\ ((forall items data,
                 py_iter data_to_update = Ret items -> data ∈ items ->
                 getitem data "name" <> Ret (JStr (dp_name obj))) ->
              obj' = obj))
  /\ openai_log (snd out) = openai_log w
  /\ fc_links_scrapped (snd out) = fc_links_scrapped w
  /\ jina_links_scrapped (snd out) = jina_links_scrapped w
  /\ (forall items,
        data_to_update = JArr items -> Forall has_keys items ->
        fst out = Ret (PyStr ("updated data: " +:+ py_str E data_to_update))).
Proof.
  cbv zeta. split; [apply update_data_names|].
  unfold update_data.
  destruct (py_iter data_to_update) as [items|e] eqn:Hit.
  - pose proof (for_each_data_frame items (data_points w)) as Hfr.
    pose proof (for_each_data_complete items (data_points w)) as Hco.
    destruct (for_each_data items (data_points w)) as [[[]|e] objs];
      cbn [fst snd data_points set_data_points openai_log fc_links_scrapped
           jina_links_scrapped] in *.
    + split; [|done].
      intros i obj Hi. destruct (Hfr i obj Hi) as (obj' & Hl & Hn & Hs).
      exists obj'. split; [exact Hl|]. split; [exact Hn|].
      intros Hun. apply Hs. intros d Hd. now apply (Hun items).
    + split; [|repeat split].
      * intros i obj Hi. destruct (Hfr i obj Hi) as (obj' & Hl & Hn & Hs).
        exists obj'. split; [exact Hl|]. split; [exact Hn|].
        intros Hun. apply Hs. intros d Hd. now apply (Hun items).
      * intros items' -> Hk. cbn in Hit. injection Hit as <-.
        specialize (Hco Hk). discriminate.
  - cbn [fst snd]. split; [eauto|]. split; [done|]. split; [done|].
    split; [done|]. intros items -> _. cbn in Hit. discriminate.
Qed.

(** No record matches: the store holds ["company_location"] only and the
    call brings ["company_founded"].  The confirmation string comes back
    and the data point is as it was. *)
Lemma update_data_frame_witness :
  fst (update_data (Scenario.offline [])
         (records_json [Scenario.founded_record])
         (Scenario.fresh ["company_location"]))
  = Ret (PyStr "updated data: [...]")
  /\ data_points
       (snd (update_data (Scenario.offline [])
               (records_json [Scenario.founded_record])
               (Scenario.fresh ["company_location"]))) !! 0
     = Some (mkDataPoint "company_location" JNull JNull).
Proof.
  destruct (update_data_frame (Scenario.offline [])
              (records_json [Scenario.founded_record])
              (Scenario.fresh ["company_location"]))
    as (_ & Hframe & _ & _ & _ & Hret).
  split.
  - apply (Hret [record_json Scenario.founded_record] eq_refl).
    apply Forall_cons. split; [|by apply Forall_nil].
    exists (JStr "company_founded"), (JStr "2019"), (JStr "https://x.test").
    repeat split; reflexivity.
  - destruct (Hframe 0 (mkDataPoint "company_location" JNull JNull) eq_refl)
      as (obj' & Hlookup & _ & Hsame).
    rewrite Hlookup, Hsame; [reflexivity|].
    intros items data [= <-] Hd. apply list_elem_of_singleton in Hd.
    subst data. discriminate.
Defined.



End FactStore.

(** * The chat client: [chat_request] *)

Section ChatClient.
Import AgentScrapper.
Variable E : env.

Lemma create_eq req w :
  create E req w
  = (openai_create E (length (openai_log w)) req, log_request req w).
Proof. reflexivity. Qed.

(** One attempt: a provider error never reaches [return None]. *)
Lemma chat_request_body_error messages tools tool_choice w e :
  openai_create E (length (openai_log w)) (ChatRequest messages tools tool_choice)
    = Raise e ->
  chat_request_body E messages tools tool_choice w
  = (Raise (UnboundLocalError "response"),
     log_request (ChatRequest messages tools tool_choice) w).
Proof.
  intros H. unfold chat_request_body, try_except, bind.
  rewrite create_eq, H. reflexivity.
Qed.

Lemma chat_request_body_ok messages tools tool_choice w r :
  openai_create E (length (openai_log w)) (ChatRequest messages tools tool_choice)
    = Ret r ->
  chat_request_body E messages tools tool_choice w
  = (Ret (Some r), log_request (ChatRequest messages tools tool_choice) w).
Proof.
  intros H. unfold chat_request_body, try_except, bind.
  rewrite create_eq, H. reflexivity.
Qed.

Lemma chat_request_first_ok messages tools tool_choice w r :
  openai_create E (length (openai_log w)) (ChatRequest messages tools tool_choice)
    = Ret r ->
  chat_request E messages tools tool_choice w
  = (Ret (Some r), log_request (ChatRequest messages tools tool_choice) w).
Proof.
  intros H. unfold chat_request, stop_after_attempt. cbn [retry].
  unfold try_except at 1. now rewrite (chat_request_body_ok _ _ _ _ _ H).
Qed.

Lemma log_request_length req w :
  length (openai_log (log_request req w)) = S (length (openai_log w)).
Proof. cbn. rewrite length_app. cbn. lia. Qed.

(** However many attempts are allowed, a provider that fails on each of
    them makes the decorated call raise. *)
Lemma retry_all_fail messages tools tool_choice n : forall w,
  (forall k, k < n -> exists e,
     openai_create E (length (openai_log w) + k)
       (ChatRequest messages tools tool_choice) = Raise e) ->
  retry n (chat_request_body E messages tools tool_choice) w
  = (Raise RetryError,
     set_openai_log
       (openai_log w ++ replicate n (ChatRequest messages tools tool_choice)) w).
Proof.
  induction n as [|n IH]; intros w H.
  - cbn. rewrite app_nil_r. now destruct w.
  - cbn [retry]. unfold try_except at 1.
    destruct (H 0 ltac:(lia)) as [e He]. rewrite Nat.add_0_r in He.
    rewrite (chat_request_body_error _ _ _ _ _ He).
    rewrite IH.
    + cbn. now rewrite <- app_assoc.
    + intros k Hk. rewrite log_request_length.
      destruct (H (S k) ltac:(lia)) as [e' He']. exists e'.
      now rewrite <- He', Nat.add_succ_r.
Qed.

Lemma retry_never_none messages tools tool_choice n : forall w,
  fst (retry n (chat_request_body E messages tools tool_choice) w) <> Ret None.
Proof.
  induction n as [|n IH]; intros w; [cbn; congruence|].
  cbn [retry]. unfold try_except at 1.
  destruct (openai_create E (length (openai_log w))
              (ChatRequest messages tools tool_choice)) as [r|e] eqn:Ho.
  - rewrite (chat_request_body_ok _ _ _ _ _ Ho). cbn. congruence.
  - rewrite (chat_request_body_error _ _ _ _ _ Ho). apply IH.
Qed.


(** A call that returns has seen some attempt, one of the first [n],
    answered; the attempts before it failed, and each attempt made the
    same request. *)
Lemma retry_returns messages tools tool_choice n : forall w v w',
  retry n (chat_request_body E messages tools tool_choice) w = (Ret v, w') ->
  exists k r,
    k < n
    /\ v = Some r
    /\ openai_create E (length (openai_log w) + k)
         (ChatRequest messages tools tool_choice) = Ret r
    /\ w' = set_openai_log
              (openai_log w
               ++ replicate (S k) (ChatRequest messages tools tool_choice)) w.
Proof.
  induction n as [|n IH]; intros w v w' H; [discriminate|].
  cbn [retry] in H. unfold try_except at 1 in H.
  destruct (openai_create E (length (openai_log w))
              (ChatRequest messages tools tool_choice)) as [r|e] eqn:Ho.
  - rewrite (chat_request_body_ok _ _ _ _ _ Ho) in H. injection H as <- <-.
    exists 0, r. rewrite Nat.add_0_r. repeat split; [lia|exact Ho].
  - rewrite (chat_request_body_error _ _ _ _ _ Ho) in H.
    destruct (IH _ _ _ H) as (k & r & Hk & -> & Hr & ->).
    exists (S k), r. rewrite log_request_length in Hr.
    repeat split; [lia|now rewrite Nat.add_succ_r|].
    cbn. now rewrite <- app_assoc.
Qed.

(** The decorated call either returns the provider's response or raises:
    [None] never comes back. *)
Lemma chat_request_never_none messages tools tool_choice w :
  fst (chat_request E messages tools tool_choice w) <> Ret None.
Proof. apply retry_never_none. Qed.

End ChatClient.

(** C1 (the code departs from it). When the provider fails on each of the
    three attempts, [chat_request] has called it exactly three times and
    then raises [RetryError]; it does not return [None]. *)
Theorem chat_request_exhausted E messages tools tool_choice w :
  (forall k, k < 3 -> exists e,
     openai_create E (length (openai_log w) + k)
       (ChatRequest messages tools tool_choice) = Raise e) ->
  AgentScrapper.chat_request E messages tools tool_choice w
  = (Raise RetryError,
     set_openai_log
       (openai_log w ++ replicate 3 (ChatRequest messages tools tool_choice)) w).
Proof. apply retry_all_fail. Qed.

Lemma chat_request_exhausted_witness :
  AgentScrapper.chat_request (Scenario.offline [])
    [AgentScrapper.user_message "hello"] AgentScrapper.search_tools None
    (Scenario.fresh [])
  = (Raise RetryError,
     set_openai_log
       (openai_log (Scenario.fresh [])
        ++ replicate 3 (ChatRequest [AgentScrapper.user_message "hello"]
                                    AgentScrapper.search_tools None))
       (Scenario.fresh [])).
Proof.
  apply (chat_request_exhausted (Scenario.offline [])).
  intros k Hk. exists (ExternalError "openai"). reflexivity.
Defined.

(** * The context compactor: [optimise_messages] *)

Section Compactor.
Import AgentScrapper.
Variable E : env.

Lemma index_of_elem x l : x ∈ l -> exists i, index_of x l = Some i.
Proof.
  induction l as [|y l IH]; intros H; [by apply elem_of_nil in H|].
  cbn. destruct (decide (y = x)) as [|Hne]; [eauto|].
  apply elem_of_cons in H as [->|H]; [done|].
  destruct (IH H) as [i ->]. eauto.
Qed.

Lemma latest_nonempty (messages : list message) :
  messages <> [] ->
  exists oldest rest index,
    drop (length messages - 12) messages = oldest :: rest
    /\ index_of oldest messages = Some index.
Proof.
  intros Hne.
  destruct (drop (length messages - 12) messages) as [|oldest rest] eqn:Hd.
  - apply (f_equal length) in Hd. rewrite length_drop in Hd. cbn in Hd.
    destruct messages; [done|]. cbn in Hd. lia.
  - assert (oldest ∈ messages) as Hin.
    { apply (subseteq_drop (length messages - 12)). rewrite Hd. left. }
    destruct (index_of_elem _ _ Hin) as [i Hi]. eauto.
Qed.

(** The three ways through [optimise_messages] on a non-empty history:
    compaction starts and its one request decides, both thresholds are
    kept and nothing happens, or the tokenizer raises before anything is
    asked. *)
Lemma optimise_messages_cases messages w :
  messages <> [] ->
  (compaction_starts E messages
   /\ optimise_messages E messages w = compacted E messages w)
  \/ (length messages <= 24
      /\ (exists n, token_estimate E messages = Ret n /\ (n <= 10000)%N)
      /\ optimise_messages E messages w = (Ret messages, w))
  \/ (exists e,
        tokenizer_raises E messages e
        /\ optimise_messages E messages w = (Raise e, w)).
Proof.
  intros Hne.
  destruct (latest_nonempty messages Hne) as (oldest & rest & index & Hd & Hi).
  unfold compaction_starts, tokenizer_raises, over_budget, token_estimate,
    compacted, early_messages.
  destruct messages as [|first tl]; [done|].
  cbv beta iota zeta delta
    [optimise_messages bind lift ret raise try_except create].
  rewrite Hd. cbv beta iota zeta. rewrite Hi. cbv beta iota zeta.
  cbn [default fmap option_fmap option_map head id].
  destruct (encoding_for_model E (encoding_model E)) as [encoding|e].
  2:{ right. right. exists e. split; [|reflexivity].
      destruct (decide (length (first :: tl) <= 24)); [left; done|].
      right. split; [left; lia|reflexivity]. }
  destruct (bool_decide (24 < length (first :: tl))) eqn:Hlen.
  - apply bool_decide_eq_true in Hlen.
    destruct (encoding (oldest :: rest)) as [k|e] eqn:Hk.
    2:{ right. right. exists e. split; [|reflexivity].
        right. split; [by left|done]. }
    left. split; [split; [eauto|split; [by left|eauto]]|].
    destruct (openai_create E _ _) as [r|e]; [|reflexivity].
    destruct (choices r) as [|c cs]; reflexivity.
  - apply bool_decide_eq_false in Hlen.
    destruct (encoding (first :: tl)) as [n|e] eqn:Hn.
    2:{ right. right. exists e. split; [|reflexivity].
        left. split; [lia|reflexivity]. }
    destruct (bool_decide (10000 < n)%N) eqn:Hbig.
    + apply bool_decide_eq_true in Hbig.
      destruct (encoding (oldest :: rest)) as [k|e] eqn:Hk.
      2:{ right. right. exists e. split; [|reflexivity].
          right. split; [right; eauto|done]. }
      left. split; [split; [eauto|split; [right; eauto|eauto]]|].
      destruct (openai_create E _ _) as [r|e]; [|reflexivity].
      destruct (choices r) as [|c cs]; reflexivity.
    + apply bool_decide_eq_false in Hbig.
      right. left. split; [lia|]. split; [exists n; split; [reflexivity|lia]|].
      reflexivity.
Qed.

Lemma over_budget_idle messages n :
  over_budget E messages ->
  length messages <= 24 -> token_estimate E messages = Ret n ->
  (n <= 10000)%N -> False.
Proof.
  intros [Hob|(n' & Hn' & Hbig)] Hlen Hn Hle; [lia|].
  rewrite Hn in Hn'. injection Hn' as <-. lia.
Qed.

(** Below both thresholds nothing is asked and nothing changes. *)
Lemma optimise_messages_idle messages w n :
  messages <> [] ->
  length messages <= 24 ->
  token_estimate E messages = Ret n ->
  (n <= 10000)%N ->
  optimise_messages E messages w = (Ret messages, w).
Proof.
  intros Hne Hlen Hn Hle.
  destruct (optimise_messages_cases messages w Hne)
    as [[(_ & Hob & _) _]|[(_ & _ & H)|(e & [[_ He]|[Hob _]] & _)]];
    [exfalso|exact H|exfalso..].
  - exact (over_budget_idle _ _ Hob Hlen Hn Hle).
  - congruence.
  - exact (over_budget_idle _ _ Hob Hlen Hn Hle).
Qed.

(** Once compaction has started exactly one summary request is made, and
    its outcome decides the result. *)
Lemma optimise_messages_triggered messages w :
  messages <> [] ->
  compaction_starts E messages ->
  optimise_messages E messages w = compacted E messages w.
Proof.
  intros Hne (_ & Hob & (k & Hk)).
  destruct (optimise_messages_cases messages w Hne)
    as [[_ H]|[(Hlen & (n & Hn & Hle) & _)|(e & [[Hlen He]|[_ He]] & _)]];
    [exact H|exfalso..].
  - exact (over_budget_idle _ _ Hob Hlen Hn Hle).
  - destruct Hob as [Hob|(n' & Hn' & _)]; [lia|congruence].
  - congruence.
Qed.

(** The request log tells whether the summary request was made: it was
    when compaction started, and only then. *)
Lemma request_made_inv messages w req :
  summary_request_made E messages w req ->
  messages <> []
  /\ compaction_starts E messages
  /\ req = SummaryRequest (early_messages messages).
Proof.
  unfold summary_request_made. intros Hm.
  assert (forall l : list request, l <> l ++ [req]) as Hfix.
  { intros l H. apply (f_equal length) in H. rewrite length_app in H.
    cbn in H. lia. }
  destruct messages as [|first tl]; [exfalso; exact (Hfix _ Hm)|].
  split; [done|].
  destruct (optimise_messages_cases (first :: tl) w ltac:(done))
    as [[Hs H]|[(_ & _ & H)|(e & _ & H)]]; rewrite H in Hm.
  - split; [exact Hs|]. unfold compacted in Hm. cbn in Hm.
    apply app_inv_head in Hm. now injection Hm as <-.
  - exfalso; exact (Hfix _ Hm).
  - exfalso; exact (Hfix _ Hm).
Qed.

Lemma request_made_intro messages w :
  messages <> [] ->
  compaction_starts E messages ->
  summary_request_made E messages w (SummaryRequest (early_messages messages)).
Proof.
  intros Hne Hs. unfold summary_request_made.
  now rewrite (optimise_messages_triggered _ _ Hne Hs).
Qed.

Lemma last_drop {A} (l : list A) n : n < length l -> last (drop n l) = last l.
Proof.
  revert n; induction l as [|x l IH]; intros n Hn; [cbn in Hn; lia|].
  destruct n as [|n]; [reflexivity|]. cbn [drop].
  rewrite IH by (cbn in Hn; lia).
  destruct l; [cbn in Hn; lia|reflexivity].
Qed.

Lemma compacted_last messages w messages' w' :
  messages <> [] ->
  compacted E messages w = (Ret messages', w') ->
  last messages' = last messages.
Proof.
  intros Hne. unfold compacted.
  destruct (openai_create E _ _) as [r|e]; [|by intros [= <- _]].
  destruct (choices r) as [|c cs]; [by intros [= <- _]|].
  intros [= <- _].
  destruct (latest_nonempty messages Hne) as (oldest & rest & index & Hd & _).
  rewrite <- (last_drop messages (length messages - 12)).
  - rewrite Hd. reflexivity.
  - destruct messages; [done|cbn; lia].
Qed.

(** A compaction that returns keeps the last message in last place. *)
Lemma optimise_messages_last messages w messages' w' :
  messages <> [] ->
  optimise_messages E messages w = (Ret messages', w') ->
  last messages' = last messages.
Proof.
  intros Hne Ho.
  destruct (optimise_messages_cases messages w Hne)
    as [[_ H]|[(_ & _ & H)|(e & _ & H)]]; rewrite H in Ho.
  - exact (compacted_last _ _ _ _ Hne Ho).
  - now injection Ho as <- _.
  - discriminate.
Qed.

(** With a tokenizer that counts every text, compaction returns. *)
Lemma optimise_messages_returns messages w :
  messages <> [] ->
  (forall ms, exists n, token_estimate E ms = Ret n) ->
  exists messages' w',
    optimise_messages E messages w = (Ret messages', w').
Proof.
  intros Hne Htot.
  destruct (optimise_messages_cases messages w Hne)
    as [[_ H]|[(_ & _ & H)|(e & [[_ He]|[_ He]] & H)]].
  - rewrite H. unfold compacted.
    destruct (openai_create E _ _) as [r|e]; [|eauto].
    destruct (choices r); eauto.
  - eauto.
  - destruct (Htot messages) as [n Hn]. congruence.
  - destruct (Htot (drop (length messages - 12) messages)) as [n Hn]. congruence.
Qed.

End Compactor.

(** C4 as stated fails on the empty history: [messages[0]] is read before
    the thresholds are looked at. *)
Lemma optimise_messages_empty_raises :
  length ([] : list message) <= 24
  /\ (exists n, token_estimate (Scenario.offline []) [] = Ret n /\ (n <= 10000)%N)
  /\ AgentScrapper.optimise_messages (Scenario.offline []) [] (Scenario.fresh [])
     = (Raise IndexError, Scenario.fresh [])
  /\ fst (AgentScrapper.optimise_messages (Scenario.offline []) []
            (Scenario.fresh []))
     <> Ret [].
Proof.
  split; [cbn; lia|]. split; [exists 0%N; split; [reflexivity|lia]|].
  split; [reflexivity|discriminate].
Qed.

(** C4 (amended). On a non-empty history of at most 24 messages whose token
    estimate is at most 10,000, [optimise_messages] returns the history
    as it is, and asks the provider nothing. *)
Theorem optimise_messages_identity E messages w n :
  messages <> [] ->
  length messages <= 24 ->
  token_estimate E messages = Ret n ->
  (n <= 10000)%N ->
  AgentScrapper.optimise_messages E messages w = (Ret messages, w).
Proof. apply optimise_messages_idle. Qed.

Lemma optimise_messages_identity_witness :
  AgentScrapper.optimise_messages (Scenario.offline []) (Scenario.history 3)
    (Scenario.fresh [])
  = (Ret (Scenario.history 3), Scenario.fresh []).
Proof.
  apply (optimise_messages_identity (Scenario.offline []) (Scenario.history 3)
           (Scenario.fresh []) 3000%N).
  - discriminate.
  - cbn. lia.
  - reflexivity.
  - lia.
Defined.



(** C6. When a threshold is exceeded and the summary request is made and
    fails (the provider raises, or answers without a first choice),
    [optimise_messages] returns the history as it was and does not raise;
    the failed request is all that happened.  (When the tokenizer raises
    at lines 217-221 no request is made, and the call raises.) *)
Theorem optimise_messages_resilient E messages w req :
  over_budget E messages ->
  summary_request_made E messages w req ->
  summary_failed (openai_create E (length (openai_log w)) req) ->
  req = SummaryRequest (early_messages messages)
  /\ AgentScrapper.optimise_messages E messages w
     = (Ret messages, log_request req w).
Proof.
  intros _ Hm Hf.
  destruct (request_made_inv E _ _ _ Hm) as (Hne & Hs & ->).
  split; [reflexivity|].
  rewrite (optimise_messages_triggered E _ _ Hne Hs). unfold compacted.
  destruct (openai_create E _ _) as [r|e]; [|reflexivity].
  cbn in Hf. now rewrite Hf.
Qed.

Lemma optimise_messages_resilient_witness :
  SummaryRequest (early_messages (Scenario.history 11))
  = SummaryRequest (early_messages (Scenario.history 11))
  /\ AgentScrapper.optimise_messages (Scenario.offline []) (Scenario.history 11)
       (Scenario.fresh [])
     = (Ret (Scenario.history 11),
        log_request (SummaryRequest (early_messages (Scenario.history 11)))
                    (Scenario.fresh [])).
Proof.
  apply (optimise_messages_resilient (Scenario.offline []) (Scenario.history 11)
           (Scenario.fresh [])
           (SummaryRequest (early_messages (Scenario.history 11)))).
  - right. exists 11000%N. split; [reflexivity|lia].
  - reflexivity.
  - exact I.
Defined.

(** * The controller: [run] *)

Section Controller.
Import AgentScrapper.
Variable E : env.

(** A tool name outside the table: the subscript raises before the
    [if tool_to_call] test is reached. *)
Lemma subscript_unknown tool_name :
  get_tools_list !! tool_name = None ->
  subscript get_tools_list tool_name = Raise (KeyError tool_name).
Proof. intros H. unfold subscript. now rewrite H. Qed.

(** The table has the three names and no other. *)
Lemma get_tools_list_dom tool_name :
  get_tools_list !! tool_name = None
  <-> tool_name ∉ ["scrape"; "search"; "update_data"].
Proof.
  unfold get_tools_list. split.
  - intros H Hin. repeat (apply elem_of_cons in Hin as [->|Hin]);
      [discriminate..|by apply elem_of_nil in Hin].
  - intros H. rewrite !lookup_insert_ne, lookup_singleton_ne; [reflexivity|..];
      intros <-; apply H; set_solver.
Qed.

Lemma for_tool_calls_unknown tool_call rest messages w args :
  get_tools_list !! tc_name tool_call = None ->
  json_loads E (tc_arguments tool_call) = Ret args ->
  for_tool_calls E (tool_call :: rest) messages w
  = (Raise (KeyError (tc_name tool_call)), w).
Proof.
  intros Hn Hj. cbn [for_tool_calls]. unfold bind, lift.
  now rewrite Hj, (subscript_unknown _ Hn).
Qed.

(** The calls of one response are dispatched one after the other. *)
Lemma for_tool_calls_app pre post : forall messages w,
  for_tool_calls E (pre ++ post) messages w
  = match for_tool_calls E pre messages w with
    | (Ret (Go messages1), w1) => for_tool_calls E post messages1 w1
    | other => other
    end.
Proof.
  induction pre as [|tool_call pre IH]; intros messages w; [reflexivity|].
  cbn [app for_tool_calls]. unfold bind, lift.
  destruct (json_loads E (tc_arguments tool_call)) as [args|e]; [|reflexivity].
  destruct (subscript get_tools_list (tc_name tool_call)) as [t|e];
    [|reflexivity].
  cbn [truthy].
  destruct (call_tool E t args w) as [[result|e] w1]; [apply IH|reflexivity].
Qed.

Lemma turn_unknown_tool r c cs pre tool_call rest messages w args messages1 w1 :
  choices r = c :: cs ->
  finish_reason c = "tool_calls" ->
  cm_tool_calls (choice_msg c) = Some (pre ++ tool_call :: rest) ->
  for_tool_calls E pre
    (messages ++ [assistant_message (cm_content (choice_msg c))
                                    (cm_tool_calls (choice_msg c))]) w
  = (Ret (Go messages1), w1) ->
  get_tools_list !! tc_name tool_call = None ->
  json_loads E (tc_arguments tool_call) = Ret args ->
  turn E (Some r) messages w = (Raise (KeyError (tc_name tool_call)), w1).
Proof.
  intros Hc Hf Ht Hpre Hn Hj. unfold turn. rewrite Hc, Hf.
  rewrite decide_True by reflexivity.
  unfold bind at 1. rewrite Ht in *.
  rewrite for_tool_calls_app, Hpre.
  now rewrite (for_tool_calls_unknown _ _ _ _ _ Hn Hj).
Qed.

(** The [chat_response == None] branch of the loop: the state becomes
    finished and the history is returned from as it stands. *)
Lemma turn_none messages w :
  turn E None messages w = (Ret (Go (finished, messages)), w).
Proof. reflexivity. Qed.

(** A pass on a response that stops: the assistant message is appended,
    the state becomes finished, and what is left to do is the closing
    [optimise_messages]. *)
Lemma turn_stop r c cs messages w :
  choices r = c :: cs ->
  finish_reason c = "stop" ->
  turn E (Some r) messages w
  = match optimise_messages E
            (messages ++ [assistant_message (cm_content (choice_msg c))
                                            (cm_tool_calls (choice_msg c))]) w with
    | (Ret messages', w') => (Ret (Go (finished, messages')), w')
    | (Raise e, w') => (Raise e, w')
    end.
Proof.
  intros Hc Hf. unfold turn. rewrite Hc, Hf.
  rewrite decide_False by discriminate. rewrite decide_True by reflexivity.
  unfold bind at 1. unfold ret at 1. cbn iota beta.
  unfold bind. destruct (optimise_messages E _ w) as [[ms'|e] w']; reflexivity.
Qed.

(** A pass of the loop on a response that stops is the last one.  When
    the closing [optimise_messages] returns, compacting or not, the run
    returns the content of that final assistant message; when it raises
    (the tokenizer does), the run raises the same exception.  The state
    is the one [optimise_messages] leaves. *)
Lemma while_running_stop fuel tools messages w r w1 c cs :
  chat_request E messages tools None w = (Ret (Some r), w1) ->
  choices r = c :: cs ->
  finish_reason c = "stop" ->
  while_running E (S fuel) tools messages w
  = Some
      (match fst (optimise_messages E
                    (messages ++ [assistant_message (cm_content (choice_msg c))
                                                    (cm_tool_calls (choice_msg c))])
                    w1) with
       | Ret _ => Ret (cm_content (choice_msg c))
       | Raise e => Raise e
       end,
       snd (optimise_messages E
              (messages ++ [assistant_message (cm_content (choice_msg c))
                                              (cm_tool_calls (choice_msg c))])
              w1)).
Proof.
  intros Hq Hc Hf. cbn [while_running]. unfold bind at 1. rewrite Hq.
  rewrite (turn_stop r c cs messages w1 Hc Hf).
  set (ms := messages ++ _).
  destruct (optimise_messages E ms w1) as [[ms'|e] w'] eqn:Ho; [|reflexivity].
  cbn [fst snd]. unfold last_content.
  rewrite (optimise_messages_last E ms w1 ms' w' ltac:(subst ms; now destruct messages) Ho).
  subst ms. now rewrite last_snoc.
Qed.


(** The [return None] of line 329 is never taken: the dispatch loop ends
    normally or raises. *)
Lemma for_tool_calls_no_return tcs : forall messages w v,
  fst (for_tool_calls E tcs messages w) <> Ret (Return v).
Proof.
  induction tcs as [|tool_call rest IH]; intros messages w v; [cbn; congruence|].
  cbn [for_tool_calls]. unfold bind, lift.
  destruct (json_loads E (tc_arguments tool_call)) as [args|e]; [|cbn; congruence].
  destruct (subscript get_tools_list (tc_name tool_call)) as [t|e];
    [|cbn; congruence].
  cbn [truthy].
  destruct (call_tool E t args w) as [[result|e] w1]; [apply IH|cbn; congruence].
Qed.

Lemma seed_messages_no_plan prompt system_prompt tools w :
  seed_messages E prompt system_prompt tools false w
  = (Ret (Go [user_message (system_prompt +:+ " " +:+ prompt)]), w).
Proof. reflexivity. Qed.

Lemma seed_messages_plan prompt system_prompt tools w r c cs :
  openai_create E (length (openai_log w))
    (plan_request prompt system_prompt tools) = Ret r ->
  choices r = c :: cs ->
  seed_messages E prompt system_prompt tools true w
  = (Ret (Go [user_message (system_prompt +:+ " " +:+ prompt);
              plan_message (cm_content (choice_msg c))]),
     log_request (plan_request prompt system_prompt tools) w).
Proof.
  intros Ho Hc. unfold seed_messages, bind.
  rewrite (chat_request_first_ok E _ _ _ _ _ Ho), Hc. reflexivity.
Qed.

Lemma seed_messages_plan_inv prompt system_prompt tools w messages w' :
  seed_messages E prompt system_prompt tools true w = (Ret (Go messages), w') ->
  exists k r c cs,
    k < 3
    /\ openai_create E (length (openai_log w) + k)
         (plan_request prompt system_prompt tools) = Ret r
    /\ choices r = c :: cs
    /\ messages = [user_message (system_prompt +:+ " " +:+ prompt);
                   plan_message (cm_content (choice_msg c))]
    /\ w' = set_openai_log
              (openai_log w
               ++ replicate (S k) (plan_request prompt system_prompt tools)) w.
Proof.
  unfold seed_messages, bind, chat_request, stop_after_attempt. intros H.
  destruct (retry 3 _ w) as [[v|e] w1] eqn:Hr; [|discriminate].
  destruct (retry_returns E _ _ _ _ _ _ _ Hr) as (k & r & Hk & -> & Ho & ->).
  destruct (choices r) as [|c cs] eqn:Hc; [discriminate|].
  injection H as <- <-. exists k, r, c, cs. repeat split; done.
Qed.

Lemma call_scrape_fetch_error u e w :
  requests_get E ("https://r.jina.ai/" +:+ u) = Raise e ->
  call_tool E JinaScrape (JObj [("url", JStr u)]) w = (Raise e, w).
Proof.
  intros H.
  assert (bind_kwargs (parameters JinaScrape) (JObj [("url", JStr u)])
          = Ret [JStr u]) as Hk by reflexivity.
  unfold call_tool, bind, lift. rewrite Hk.
  unfold JinaAiTools.scrape. now rewrite H.
Qed.


(** The dispatch loop appends one tool message per call, in the order of
    the calls, each under its call's id and name. *)
Lemma for_tool_calls_messages tcs : forall messages w messages' w',
  for_tool_calls E tcs messages w = (Ret (Go messages'), w') ->
  exists results,
    length results = length tcs
    /\ messages'
       = messages
         ++ zip_with (fun tc result => tool_message (tc_id tc) (tc_name tc) result)
                     tcs results.
Proof.
  induction tcs as [|tool_call rest IH]; intros messages w messages' w' H.
  - cbn in H. injection H as <- <-. exists []. now rewrite app_nil_r.
  - cbn [for_tool_calls] in H. unfold bind, lift in H.
    destruct (json_loads E (tc_arguments tool_call)) as [args|e]; [|discriminate].
    destruct (subscript get_tools_list (tc_name tool_call)) as [t|e];
      [|discriminate].
    cbn [truthy] in H.
    destruct (call_tool E t args w) as [[result|e] w1]; [|discriminate].
    destruct (IH _ _ _ _ H) as (results & Hlen & ->).
    exists (result :: results). split; [cbn; now rewrite Hlen|].
    cbn [zip_with]. now rewrite <- app_assoc.
Qed.

Lemma fc_scrape_never_raises url w :
  exists v w', FireCrawlTools.scrape E url w = (Ret v, w').
Proof.
  unfold FireCrawlTools.scrape.
  destruct (firecrawl_scrape_url E url); eauto.
Qed.

End Controller.

(** C2 (the code departs from it). In any pass of the loop, when the
    response asks for a tool whose name has no entry in the dispatch
    table (the calls listed before it, if any, having been dispatched),
    [run] raises [KeyError] to its caller: it does not return [None].
    The call is not skipped and the run ends there: the state is the one
    in which the call was reached, so no request follows. *)
Theorem unknown_tool_raises E fuel tools messages w r w1 c cs
    pre tool_call rest args messages2 w2 :
  AgentScrapper.chat_request E messages tools None w = (Ret (Some r), w1) ->
  choices r = c :: cs ->
  finish_reason c = "tool_calls" ->
  cm_tool_calls (choice_msg c) = Some (pre ++ tool_call :: rest) ->
  AgentScrapper.for_tool_calls E pre
    (messages ++ [AgentScrapper.assistant_message (cm_content (choice_msg c))
                    (cm_tool_calls (choice_msg c))]) w1
  = (Ret (AgentScrapper.Go messages2), w2) ->
  AgentScrapper.get_tools_list !! tc_name tool_call = None ->
  json_loads E (tc_arguments tool_call) = Ret args ->
  AgentScrapper.while_running E (S fuel) tools messages w
  = Some (Raise (KeyError (tc_name tool_call)), w2).
Proof.
  intros Hq Hc Hf Ht Hpre Hn Hj. cbn [AgentScrapper.while_running].
  unfold bind at 1. rewrite Hq.
  now rewrite (turn_unknown_tool E r c cs pre tool_call rest _ _ args _ _
                 Hc Hf Ht Hpre Hn Hj).
Qed.

(** The first response of a run asks for ["lookup"]: the run raises
    [KeyError] after its one request. *)
Lemma unknown_tool_raises_witness :
  AgentScrapper.run
    (Scenario.offline
       [Scenario.reply "tool_calls" PyNone (Some [mkToolCall "call_1" "lookup" "{}"])])
    1 "prompt" "instruction" AgentScrapper.scrape_tools false (Scenario.fresh [])
  = Some (Raise (KeyError "lookup"),
          log_request
            (ChatRequest
               [AgentScrapper.user_message ("instruction" +:+ " " +:+ "prompt")]
               AgentScrapper.scrape_tools None) (Scenario.fresh [])).
Proof.
  apply (unknown_tool_raises
           (Scenario.offline
              [Scenario.reply "tool_calls" PyNone
                 (Some [mkToolCall "call_1" "lookup" "{}"])])
           0 AgentScrapper.scrape_tools
           [AgentScrapper.user_message ("instruction" +:+ " " +:+ "prompt")]
           (Scenario.fresh [])
           (mkCompletion [mkChoice "tool_calls"
              (mkChoiceMessage PyNone (Some [mkToolCall "call_1" "lookup" "{}"]))])
           (log_request
              (ChatRequest
                 [AgentScrapper.user_message ("instruction" +:+ " " +:+ "prompt")]
                 AgentScrapper.scrape_tools None) (Scenario.fresh []))
           (mkChoice "tool_calls"
              (mkChoiceMessage PyNone (Some [mkToolCall "call_1" "lookup" "{}"])))
           [] [] (mkToolCall "call_1" "lookup" "{}") [] (JObj [])
           [AgentScrapper.user_message ("instruction" +:+ " " +:+ "prompt");
            AgentScrapper.assistant_message PyNone
              (Some [mkToolCall "call_1" "lookup" "{}"])]
           (log_request
              (ChatRequest
                 [AgentScrapper.user_message ("instruction" +:+ " " +:+ "prompt")]
                 AgentScrapper.scrape_tools None) (Scenario.fresh [])));
    reflexivity.
Defined.

(** C3 (the code departs from it). In any pass of the loop, when the
    provider fails on each of the three attempts of the request, [run]
    raises [RetryError] to its caller instead of returning [None]. *)
Theorem chat_failure_raises E fuel tools messages w :
  (forall k, k < 3 -> exists e,
     openai_create E (length (openai_log w) + k)
       (ChatRequest messages tools None) = Raise e) ->
  AgentScrapper.while_running E (S fuel) tools messages w
  = Some (Raise RetryError,
          set_openai_log
            (openai_log w ++ replicate 3 (ChatRequest messages tools None)) w).
Proof.
  intros H. cbn [AgentScrapper.while_running].
  unfold bind at 1. unfold AgentScrapper.chat_request, AgentScrapper.stop_after_attempt.
  now rewrite (retry_all_fail E _ _ _ 3 w H).
Qed.

(** The provider is down from the start of a run without plan. *)
Lemma chat_failure_raises_witness :
  AgentScrapper.run (Scenario.offline []) 1 "prompt" "instruction"
    AgentScrapper.search_tools false (Scenario.fresh [])
  = Some (Raise RetryError,
          set_openai_log
            (openai_log (Scenario.fresh [])
             ++ replicate 3
                  (ChatRequest
                     [AgentScrapper.user_message ("instruction" +:+ " " +:+ "prompt")]
                     AgentScrapper.search_tools None)) (Scenario.fresh [])).
Proof.
  apply (chat_failure_raises (Scenario.offline []) 0 AgentScrapper.search_tools
           [AgentScrapper.user_message ("instruction" +:+ " " +:+ "prompt")]
           (Scenario.fresh [])).
  intros k Hk. exists (ExternalError "openai"). reflexivity.
Defined.

(** C7 as stated fails: the plan request of a site-scoped search carries
    the same tool declarations as every later request, and no
    [tool_choice] that would switch them off. *)
Lemma plan_request_has_tool_access :
  exists req,
    openai_log
      (snd (AgentScrapper.seed_messages
              (Scenario.offline [Scenario.reply "stop" (PyStr "the plan") None])
              "prompt" "instruction" AgentScrapper.scrape_tools true
              (Scenario.fresh [])))
    = [req]
    /\ ~ no_tool_access req.
Proof.
  eexists. split; [reflexivity|]. intros [H|H]; discriminate.
Qed.

(** C7 (amended). Without plan-first mode no request is made and the
    history starts as the one user message of instruction and prompt.  In
    plan-first mode one [chat_request] is made, with the caller's tool
    declarations and no forced tool choice: when the provider answers its
    first attempt that is exactly one request, and the history starts as
    the user message followed by an assistant message holding the content
    of the answer; and whenever a history is seeded at all, it has this
    shape and one to three identical plan requests were made. *)
Theorem seed_messages_spec E prompt system_prompt tools w :
  AgentScrapper.seed_messages E prompt system_prompt tools false w
  = (Ret (AgentScrapper.Go
            [AgentScrapper.user_message (system_prompt +:+ " " +:+ prompt)]), w)
  /\ (forall r c cs,
       openai_create E (length (openai_log w))
         (plan_request prompt system_prompt tools) = Ret r ->
       choices r = c :: cs ->
       AgentScrapper.seed_messages E prompt system_prompt tools true w
       = (Ret (AgentScrapper.Go
                 [AgentScrapper.user_message (system_prompt +:+ " " +:+ prompt);
                  AgentScrapper.plan_message (cm_content (choice_msg c))]),
          set_openai_log
            (openai_log w ++ [plan_request prompt system_prompt tools]) w))
  /\ (forall messages w',
       AgentScrapper.seed_messages E prompt system_prompt tools true w
       = (Ret (AgentScrapper.Go messages), w') ->
       exists k r c cs,
         k < 3
         /\ openai_create E (length (openai_log w) + k)
              (plan_request prompt system_prompt tools) = Ret r
         /\ choices r = c :: cs
         /\ messages
            = [AgentScrapper.user_message (system_prompt +:+ " " +:+ prompt);
               AgentScrapper.plan_message (cm_content (choice_msg c))]
         /\ w' = set_openai_log
                   (openai_log w
                    ++ replicate (S k) (plan_request prompt system_prompt tools))
                   w).
Proof.
  split; [apply seed_messages_no_plan|]. split.
  - intros r c cs Ho Hc. exact (seed_messages_plan E _ _ _ _ r c cs Ho Hc).
  - intros messages w'. apply seed_messages_plan_inv.
Qed.

Lemma seed_messages_spec_witness :
  AgentScrapper.seed_messages
    (Scenario.offline [Scenario.reply "stop" (PyStr "the plan") None])
    "prompt" "instruction" AgentScrapper.scrape_tools true (Scenario.fresh [])
  = (Ret (AgentScrapper.Go
            [AgentScrapper.user_message ("instruction" +:+ " " +:+ "prompt");
             AgentScrapper.plan_message (PyStr "the plan")]),
     set_openai_log
       [plan_request "prompt" "instruction" AgentScrapper.scrape_tools]
       (Scenario.fresh [])).
Proof.
  apply (proj1 (proj2 (seed_messages_spec
                  (Scenario.offline [Scenario.reply "stop" (PyStr "the plan") None])
                  "prompt" "instruction" AgentScrapper.scrape_tools
                  (Scenario.fresh [])))
               (mkCompletion [mkChoice "stop" (mkChoiceMessage (PyStr "the plan") None)])
               (mkChoice "stop" (mkChoiceMessage (PyStr "the plan") None)) []);
    reflexivity.
Defined.

(** C8 (the code departs from it). When the fetch raises, the callable
    dispatched under ["scrape"] raises the same exception, and so does the
    dispatch loop of the controller: no tool message is appended. *)
Theorem scrape_fetch_error_propagates E u e tool_call rest messages w :
  requests_get E ("https://r.jina.ai/" +:+ u) = Raise e ->
  tc_name tool_call = "scrape" ->
  json_loads E (tc_arguments tool_call) = Ret (JObj [("url", JStr u)]) ->
  JinaAiTools.scrape E (JStr u) w = (Raise e, w)
  /\ AgentScrapper.for_tool_calls E (tool_call :: rest) messages w = (Raise e, w).
Proof.
  intros Hg Hn Hj. split.
  - unfold JinaAiTools.scrape. now rewrite Hg.
  - cbn [AgentScrapper.for_tool_calls]. unfold bind at 1, lift at 1. rewrite Hj.
    unfold bind at 1, lift at 1. rewrite Hn.
    change (AgentScrapper.subscript AgentScrapper.get_tools_list "scrape")
      with (Ret AgentScrapper.JinaScrape).
    cbn [AgentScrapper.truthy]. unfold bind at 1.
    now rewrite (call_scrape_fetch_error E u e w Hg).
Qed.

Lemma scrape_fetch_error_propagates_witness :
  JinaAiTools.scrape (Scenario.offline []) (JStr "https://x.test") (Scenario.fresh [])
  = (Raise (ExternalError "requests"), Scenario.fresh [])
  /\ AgentScrapper.for_tool_calls (Scenario.offline [])
       (mkToolCall "call_1" "scrape" Scenario.url_arguments :: []) []
       (Scenario.fresh [])
     = (Raise (ExternalError "requests"), Scenario.fresh []).
Proof.
  apply (scrape_fetch_error_propagates (Scenario.offline []) "https://x.test"
           (ExternalError "requests")
           (mkToolCall "call_1" "scrape" Scenario.url_arguments) [] []
           (Scenario.fresh []));
    reflexivity.
Defined.

(** * Further properties of the controller *)

(** Every tool name of either declaration set has an entry in the dispatch
    table. *)
Theorem dispatch_complete :
  Forall (fun td => is_Some (AgentScrapper.get_tools_list !! td_name td))
         (AgentScrapper.scrape_tools ++ AgentScrapper.search_tools).
Proof. repeat constructor; eexists; reflexivity. Qed.

(** The scenario of the specification: two fact names, a model that first
    calls [update_data] for ["company_founded"] and then stops with
    ["Done"].  The run returns ["Done"], the fact is stored with its
    reference and the other fact is still pending. *)
Theorem end_to_end_scenario :
  exists w',
    AgentScrapper.run
      (Scenario.offline
         [Scenario.reply "tool_calls" PyNone
            (Some [mkToolCall "call_1" "update_data" Scenario.founded_arguments]);
          Scenario.reply "stop" (PyStr "Done") None])
      2 "prompt" "instruction" AgentScrapper.search_tools false
      (Scenario.fresh ["company_founded"; "company_location"])
    = Some (Ret (PyStr "Done"), w')
    /\ data_points w'
       = [mkDataPoint "company_founded" (JStr "2019") (JStr "https://x.test");
          mkDataPoint "company_location" JNull JNull]
    /\ FireCrawlTools.get_data_points_to_search w' = ["company_location"]
    /\ length (openai_log w') = 2.
Proof. eexists. vm_compute. repeat split. Qed.

(** Two calls in one response leave two tool messages, in the order of the
    calls, each under the id of its call. *)
Lemma for_tool_calls_messages_witness :
  exists results,
    length results
    = length [mkToolCall "call_1" "update_data" Scenario.founded_arguments;
              mkToolCall "call_2" "update_data" Scenario.founded_arguments]
    /\ [AgentScrapper.tool_message "call_1" "update_data" (PyStr "updated data: [...]");
        AgentScrapper.tool_message "call_2" "update_data" (PyStr "updated data: [...]")]
       = []
         ++ zip_with
              (fun tc result =>
                 AgentScrapper.tool_message (tc_id tc) (tc_name tc) result)
              [mkToolCall "call_1" "update_data" Scenario.founded_arguments;
               mkToolCall "call_2" "update_data" Scenario.founded_arguments]
              results.
Proof.
  apply (for_tool_calls_messages (Scenario.offline [])
           [mkToolCall "call_1" "update_data" Scenario.founded_arguments;
            mkToolCall "call_2" "update_data" Scenario.founded_arguments]
           [] (Scenario.fresh ["company_founded"])
           [AgentScrapper.tool_message "call_1" "update_data" (PyStr "updated data: [...]");
            AgentScrapper.tool_message "call_2" "update_data" (PyStr "updated data: [...]")]
           (set_data_points
              [mkDataPoint "company_founded" (JStr "2019") (JStr "https://x.test")]
              (Scenario.fresh ["company_founded"]))).
  vm_compute. reflexivity.
Defined.

(** One pass on a response that stops: the closing [optimise_messages]
    finds two messages, returns them, and the run returns ["Done"]. *)
Lemma while_running_stop_witness :
  AgentScrapper.while_running
    (Scenario.offline [Scenario.reply "stop" (PyStr "Done") None])
    1 AgentScrapper.search_tools [AgentScrapper.user_message "instruction prompt"]
    (Scenario.fresh [])
  = Some (Ret (PyStr "Done"),
          log_request
            (ChatRequest [AgentScrapper.user_message "instruction prompt"]
                         AgentScrapper.search_tools None)
            (Scenario.fresh [])).
Proof.
  exact (while_running_stop
           (Scenario.offline [Scenario.reply "stop" (PyStr "Done") None])
           0 AgentScrapper.search_tools
           [AgentScrapper.user_message "instruction prompt"] (Scenario.fresh [])
           (mkCompletion [mkChoice "stop" (mkChoiceMessage (PyStr "Done") None)])
           (log_request
              (ChatRequest [AgentScrapper.user_message "instruction prompt"]
                           AgentScrapper.search_tools None)
              (Scenario.fresh []))
           (mkChoice "stop" (mkChoiceMessage (PyStr "Done") None)) []
           eq_refl eq_refl eq_refl).
Defined.

(** [website_search] is a plan-first run over the scrape tool set, and
    [internet_search] a run without plan over the search tool set. *)
Theorem entry_points E fuel entity_name website w :
  (exists prompt,
     AgentScrapper.website_search E fuel entity_name website w
     = AgentScrapper.run E fuel prompt AgentScrapper.website_system_prompt
         AgentScrapper.scrape_tools true w)
  /\ (exists prompt,
        AgentScrapper.internet_search E fuel entity_name w
        = AgentScrapper.run E fuel prompt AgentScrapper.internet_system_prompt
            AgentScrapper.search_tools false w).
Proof. split; eexists; reflexivity. Qed.

(** * What a run leaves alone *)

Section Frame.
Import AgentScrapper.
Variable E : env.

Lemma evolves_refl w : evolves w w.
Proof. repeat split; reflexivity. Qed.

Lemma evolves_trans w1 w2 w3 : evolves w1 w2 -> evolves w2 w3 -> evolves w1 w3.
Proof.
  intros (Ha & Hb & Hc & Hd) (Ha' & Hb' & Hc' & Hd').
  repeat split; [by etrans|congruence|congruence|by etrans].
Qed.

Lemma steady_ret {A} (a : A) : steady (ret a).
Proof. intros w. apply evolves_refl. Qed.

Lemma steady_raise {A} e : steady (@raise A e).
Proof. intros w. apply evolves_refl. Qed.

Lemma steady_lift {A} (r : result A) : steady (lift r).
Proof. intros w. apply evolves_refl. Qed.

Lemma steady_gets {A} (f : world -> A) : steady (gets f).
Proof. intros w. apply evolves_refl. Qed.

Lemma steady_bind {A B} (m : M A) (k : A -> M B) :
  steady m -> (forall a, steady (k a)) -> steady (bind m k).
Proof.
  intros Hm Hk w. unfold bind. specialize (Hm w).
  destruct (m w) as [[a|e] w1]; cbn in *; [|exact Hm].
  eapply evolves_trans; [exact Hm|apply Hk].
Qed.

Lemma steady_try_except {A} (body : M A) (handler : exn -> M A) :
  steady body -> (forall e, steady (handler e)) -> steady (try_except body handler).
Proof.
  intros Hm Hk w. unfold try_except. specialize (Hm w).
  destruct (body w) as [[a|e] w1]; cbn in *; [exact Hm|].
  eapply evolves_trans; [exact Hm|apply Hk].
Qed.

Lemma steady_create req : steady (create E req).
Proof.
  intros w. repeat split; cbn; [by apply prefix_app_r|reflexivity..].
Qed.

Lemma steady_chat_request messages tools tool_choice :
  steady (chat_request E messages tools tool_choice).
Proof.
  unfold chat_request. generalize stop_after_attempt as n.
  induction n as [|n IH]; cbn [retry]; [apply steady_raise|].
  apply steady_try_except; [|intros _; exact IH].
  unfold chat_request_body. apply steady_try_except.
  - apply steady_bind; [apply steady_create|intros; apply steady_ret].
  - intros _. apply steady_bind; [apply steady_raise|intros; apply steady_ret].
Qed.

Lemma steady_update_data data_to_update :
  steady (FireCrawlTools.update_data E data_to_update).
Proof.
  intros w. pose proof (update_data_names E data_to_update w) as Hn.
  unfold FireCrawlTools.update_data in *.
  destruct (py_iter data_to_update) as [items|e]; [|apply evolves_refl].
  destruct (FireCrawlTools.for_each_data items (data_points w)) as [[[]|e] objs];
    repeat split; cbn in *; done.
Qed.

Lemma steady_jina_scrape url : steady (JinaAiTools.scrape E url).
Proof.
  intros w. unfold JinaAiTools.scrape.
  destruct url; try apply evolves_refl.
  destruct (requests_get E _); [|apply evolves_refl].
  repeat split; cbn; [reflexivity..|by apply prefix_app_r].
Qed.

Lemma steady_search query entity_name :
  steady (FireCrawlTools.search E query entity_name).
Proof.
  unfold FireCrawlTools.search.
  apply steady_bind; [apply steady_lift|intros s].
  apply steady_bind; [apply steady_gets|intros keys].
  apply steady_bind; [apply steady_create|intros r].
  destruct (choices r); [apply steady_raise|apply steady_ret].
Qed.

Lemma steady_call_tool t tool_args : steady (call_tool E t tool_args).
Proof.
  unfold call_tool. apply steady_bind; [apply steady_lift|intros args].
  destruct t, args as [|a [|b [|c args]]];
    first [apply steady_raise | apply steady_jina_scrape
          | apply steady_search | apply steady_update_data].
Qed.

Lemma steady_for_tool_calls tcs : forall messages,
  steady (for_tool_calls E tcs messages).
Proof.
  induction tcs as [|tc tcs IH]; intros messages; cbn [for_tool_calls];
    [apply steady_ret|].
  apply steady_bind; [apply steady_lift|intros args].
  apply steady_bind; [apply steady_lift|intros t]. cbn [truthy].
  apply steady_bind; [apply steady_call_tool|intros result; apply IH].
Qed.

Lemma steady_optimise_messages messages : steady (optimise_messages E messages).
Proof.
  unfold optimise_messages. destruct messages as [|first rest]; [apply steady_raise|].
  apply steady_bind; [apply steady_lift|intros encoding].
  apply steady_bind.
  { destruct (bool_decide _); [apply steady_ret|].
    apply steady_bind; [apply steady_lift|intros n; apply steady_ret]. }
  intros [|]; [|apply steady_ret].
  apply steady_bind; [apply steady_lift|intros k].
  destruct (drop _ _) as [|oldest latest]; [apply steady_raise|].
  destruct (index_of _ _) as [index|]; [|apply steady_raise].
  apply steady_try_except; [|intros; apply steady_ret].
  apply steady_bind; [apply steady_create|intros r].
  destruct (choices r); [apply steady_raise|apply steady_ret].
Qed.

Lemma steady_turn chat_response messages : steady (turn E chat_response messages).
Proof.
  unfold turn. destruct chat_response as [r|]; [|apply steady_ret].
  destruct (choices r) as [|c cs]; [apply steady_raise|].
  apply steady_bind.
  - destruct (decide _); [|apply steady_ret].
    destruct (cm_tool_calls _); [apply steady_for_tool_calls|apply steady_raise].
  - intros [ms|v]; [|apply steady_ret].
    apply steady_bind; [apply steady_optimise_messages|intros; apply steady_ret].
Qed.

Lemma steady_seed_messages prompt system_prompt tools plan :
  steady (seed_messages E prompt system_prompt tools plan).
Proof.
  unfold seed_messages. destruct plan; [|apply steady_ret].
  apply steady_bind; [apply steady_chat_request|intros [r|]]; [|apply steady_ret].
  destruct (choices r); [apply steady_raise|apply steady_ret].
Qed.

Lemma while_running_evolves fuel tools : forall messages w res w',
  while_running E fuel tools messages w = Some (res, w') -> evolves w w'.
Proof.
  induction fuel as [|fuel IH]; intros messages w res w' H; [discriminate|].
  cbn [while_running] in H.
  pose proof (steady_bind (chat_request E messages tools None)
                (fun chat_response => turn E chat_response messages)
                (steady_chat_request _ _ _)
                (fun a => steady_turn a messages) w) as Hs.
  destruct (bind _ _ w) as [[[[[] ms]|v]|e] w1]; cbn in Hs.
  - eapply evolves_trans; [exact Hs|]. eapply IH; exact H.
  - now injection H as <- <-.
  - now injection H as <- <-.
  - now injection H as <- <-.
Qed.

Lemma run_evolves fuel prompt system_prompt tools plan w res w' :
  run E fuel prompt system_prompt tools plan w = Some (res, w') -> evolves w w'.
Proof.
  unfold run. intros H.
  pose proof (steady_seed_messages prompt system_prompt tools plan w) as Hs.
  destruct (seed_messages _ _ _ _ _ w) as [[[ms|v]|e] w1]; cbn in Hs.
  - eapply evolves_trans; [exact Hs|]. eapply while_running_evolves; exact H.
  - now injection H as <- <-.
  - now injection H as <- <-.
Qed.

End Frame.

(** Whatever the model asks for, a run that ends (by returning or by
    raising) leaves the data points with the names they had, in the same
    order: tools change values and references only. *)
Theorem run_keeps_fact_names E fuel prompt system_prompt tools plan w res w' :
  AgentScrapper.run E fuel prompt system_prompt tools plan w = Some (res, w') ->
  map dp_name (data_points w') = map dp_name (data_points w).
Proof. intros H. now destruct (run_evolves E _ _ _ _ _ _ _ _ H) as (_ & ? & _). Qed.

Lemma run_keeps_fact_names_witness :
  map dp_name
    (data_points
       (Scenario.final_world
          (AgentScrapper.run Scenario.update_then_stop 2 "prompt" "instruction"
             AgentScrapper.search_tools false
             (Scenario.fresh ["company_founded"; "company_location"]))
          (Scenario.fresh [])))
  = map dp_name (data_points (Scenario.fresh ["company_founded"; "company_location"])).
Proof.
  apply (run_keeps_fact_names Scenario.update_then_stop 2 "prompt" "instruction"
           AgentScrapper.search_tools false
           (Scenario.fresh ["company_founded"; "company_location"])
           (Ret (PyStr "Done"))).
  vm_compute. reflexivity.
Defined.

(** No run adds to the list of links of [FireCrawlTools]: the scrape tool
    of the dispatch table is the one of [JinaAiTools], which keeps a list
    of its own.  The list [internet_search] puts in its prompt is
    therefore the same before and after any run. *)
Theorem run_records_no_firecrawl_link E fuel prompt system_prompt tools plan
    w res w' :
  AgentScrapper.run E fuel prompt system_prompt tools plan w = Some (res, w') ->
  FireCrawlTools.get_links_scrapped w' = FireCrawlTools.get_links_scrapped w.
Proof. intros H. now destruct (run_evolves E _ _ _ _ _ _ _ _ H) as (_ & _ & ? & _). Qed.

(** The model scrapes a page and stops: Jina's list has the link, the
    list of [FireCrawlTools] is as empty as before. *)
Lemma run_records_no_firecrawl_link_witness :
  FireCrawlTools.get_links_scrapped
    (Scenario.final_world
       (AgentScrapper.run
          (Scenario.online
             [Scenario.reply "tool_calls" PyNone
                (Some [mkToolCall "call_1" "scrape" Scenario.url_arguments]);
              Scenario.reply "stop" (PyStr "Done") None])
          2 "prompt" "instruction" AgentScrapper.scrape_tools false
          (Scenario.fresh []))
       (Scenario.fresh []))
  = FireCrawlTools.get_links_scrapped (Scenario.fresh []).
Proof.
  apply (run_records_no_firecrawl_link
           (Scenario.online
              [Scenario.reply "tool_calls" PyNone
                 (Some [mkToolCall "call_1" "scrape" Scenario.url_arguments]);
               Scenario.reply "stop" (PyStr "Done") None])
           2 "prompt" "instruction" AgentScrapper.scrape_tools false
           (Scenario.fresh []) (Ret (PyStr "Done"))).
  vm_compute. reflexivity.
Defined.



(** The script of [app.py], for any list of names: when both searches
    return, the report lists exactly the requested names, in the order
    given, and the list of links of [FireCrawlTools] is still empty. *)
Theorem research_report E fuel1 fuel2 names entity website report w' :
  App.research E fuel1 fuel2 names entity website = Some (Ret report, w') ->
  map dp_name report = names
  /\ FireCrawlTools.get_links_scrapped w' = [].
Proof.
  unfold App.research, AgentScrapper.website_search,
    AgentScrapper.internet_search. cbv zeta.
  destruct (AgentScrapper.run E fuel1 _ _ _ _ _) as [[[v1|e1] w1]|] eqn:H1;
    try discriminate.
  destruct (AgentScrapper.run E fuel2 _ _ _ _ _) as [[[v2|e2] w2]|] eqn:H2;
    try discriminate.
  intros [= <- <-].
  destruct (run_evolves E _ _ _ _ _ _ _ _ H1) as (_ & Hn1 & Hl1 & _).
  destruct (run_evolves E _ _ _ _ _ _ _ _ H2) as (_ & Hn2 & Hl2 & _).
  unfold FireCrawlTools.get_data_points, FireCrawlTools.get_links_scrapped.
  split; [|now rewrite Hl2, Hl1].
  rewrite Hn2, Hn1. cbn [data_points]. unfold FireCrawlTools.init_data_points.
  rewrite map_map. cbn. apply map_id.
Qed.

Lemma research_report_witness :
  map dp_name [mkDataPoint "company_name" JNull JNull] = ["company_name"]
  /\ FireCrawlTools.get_links_scrapped
       (Scenario.final_world
          (App.research Scenario.three_stops 1 1 ["company_name"]
             App.entity_name App.website)
          (Scenario.fresh []))
     = [].
Proof.
  apply (research_report Scenario.three_stops 1 1 ["company_name"]
           App.entity_name App.website).
  vm_compute. reflexivity.
Defined.

(** * The loop: passes, errors and what is never reached *)

Section Loop.
Import AgentScrapper.
Variable E : env.

(** A provider that sends every request the same answer. *)
Lemma chat_request_constant r messages tools tool_choice w :
  (forall n req, openai_create E n req = Ret r) ->
  chat_request E messages tools tool_choice w
  = (Ret (Some r), log_request (ChatRequest messages tools tool_choice) w).
Proof. intros H. apply chat_request_first_ok, H. Qed.

Lemma optimise_messages_total messages w :
  (forall ms, exists n, token_estimate E ms = Ret n) ->
  messages <> [] ->
  exists messages' w',
    optimise_messages E messages w = (Ret messages', w')
    /\ last messages' = last messages.
Proof.
  intros Htot Hne.
  destruct (optimise_messages_returns E messages w Hne Htot) as (ms' & w' & Ho).
  exists ms', w'. split; [exact Ho|].
  exact (optimise_messages_last E _ _ _ _ Hne Ho).
Qed.

(** A pass on a response that neither calls a tool nor stops: the
    assistant message is appended and the state stays running. *)
Lemma pass_keeps_running r c cs tools messages w :
  (forall ms, exists n, token_estimate E ms = Ret n) ->
  (forall n req, openai_create E n req = Ret r) ->
  choices r = c :: cs ->
  finish_reason c <> "tool_calls" ->
  finish_reason c <> "stop" ->
  exists messages' w',
    (chat_response <- chat_request E messages tools None ;;
     turn E chat_response messages) w
    = (Ret (Go (running, messages')), w')
    /\ last messages'
       = Some (assistant_message (cm_content (choice_msg c))
                                 (cm_tool_calls (choice_msg c))).
Proof.
  intros Htot Ho Hc Ht Hs. unfold bind at 1.
  rewrite (chat_request_constant r _ _ _ _ Ho).
  unfold turn. rewrite Hc.
  rewrite decide_False by exact Ht. rewrite decide_False by exact Hs.
  unfold bind at 1. unfold ret at 1. cbn iota beta.
  set (ms := messages ++ _).
  destruct (optimise_messages_total ms
              (log_request (ChatRequest messages tools None) w) Htot)
    as (ms' & w' & Hopt & Hl).
  { subst ms. now destruct messages. }
  exists ms', w'. unfold bind. rewrite Hopt. split; [reflexivity|].
  rewrite Hl. subst ms. now rewrite last_snoc.
Qed.

Lemma loop_without_stop_gen r c cs tools :
  (forall ms, exists n, token_estimate E ms = Ret n) ->
  (forall n req, openai_create E n req = Ret r) ->
  choices r = c :: cs ->
  finish_reason c <> "tool_calls" ->
  finish_reason c <> "stop" ->
  forall fuel messages w,
    while_running E fuel tools messages w = None.
Proof.
  intros Htot Ho Hc Ht Hs.
  induction fuel as [|fuel IH]; intros messages w; [reflexivity|].
  cbn [while_running].
  destruct (pass_keeps_running r c cs tools messages w Htot Ho Hc Ht Hs)
    as (ms' & w' & -> & _).
  apply IH.
Qed.

End Loop.

(** The loop has no bound of its own.  With a tokenizer that counts every
    text and a model that never calls a tool and never stops (each answer
    ends for another reason, as a reply cut short does), every pass
    appends the assistant message and leaves the state running, and no
    number of passes ends the run. *)
Theorem loop_without_stop E r c cs tools fuel messages w :
  (forall ms, exists n, token_estimate E ms = Ret n) ->
  (forall n req, openai_create E n req = Ret r) ->
  choices r = c :: cs ->
  finish_reason c <> "tool_calls" ->
  finish_reason c <> "stop" ->
  (exists messages' w',
     (chat_response <- AgentScrapper.chat_request E messages tools None ;;
      AgentScrapper.turn E chat_response messages) w
     = (Ret (AgentScrapper.Go (AgentScrapper.running, messages')), w')
     /\ last messages'
        = Some (AgentScrapper.assistant_message
                  (cm_content (choice_msg c)) (cm_tool_calls (choice_msg c))))
  /\ AgentScrapper.while_running E fuel tools messages w = None.
Proof.
  intros Htot Ho Hc Ht Hs. split.
  - now apply (pass_keeps_running E r c cs).
  - now apply (loop_without_stop_gen E r c cs).
Qed.

Lemma loop_without_stop_witness :
  (exists messages' w',
     (chat_response <-
        AgentScrapper.chat_request Scenario.stubborn
          [AgentScrapper.user_message "instruction prompt"]
          AgentScrapper.search_tools None ;;
      AgentScrapper.turn Scenario.stubborn chat_response
        [AgentScrapper.user_message "instruction prompt"]) (Scenario.fresh [])
     = (Ret (AgentScrapper.Go (AgentScrapper.running, messages')), w')
     /\ last messages'
        = Some (AgentScrapper.assistant_message (PyStr "and then") None))
  /\ AgentScrapper.while_running Scenario.stubborn 40 AgentScrapper.search_tools
       [AgentScrapper.user_message "instruction prompt"] (Scenario.fresh [])
     = None.
Proof.
  apply (loop_without_stop Scenario.stubborn Scenario.cut_short
           (mkChoice "length" (mkChoiceMessage (PyStr "and then") None)) []
           AgentScrapper.search_tools 40
           [AgentScrapper.user_message "instruction prompt"] (Scenario.fresh []));
    [intros ms; eexists; reflexivity|reflexivity|reflexivity
    |discriminate|discriminate].
Defined.

(** * Errors of one pass *)

Section Errors.
Import AgentScrapper.
Variable E : env.

Lemma chat_request_recovers_gen messages tools tool_choice r n : forall k w,
  k < n ->
  (forall j, j < k -> exists e,
     openai_create E (length (openai_log w) + j)
       (ChatRequest messages tools tool_choice) = Raise e) ->
  openai_create E (length (openai_log w) + k)
    (ChatRequest messages tools tool_choice) = Ret r ->
  retry n (chat_request_body E messages tools tool_choice) w
  = (Ret (Some r),
     set_openai_log
       (openai_log w ++ replicate (S k) (ChatRequest messages tools tool_choice)) w).
Proof.
  induction n as [|n IH]; intros k w Hk Hfail Hok; [lia|].
  cbn [retry]. unfold try_except at 1.
  destruct k as [|k].
  - rewrite Nat.add_0_r in Hok.
    now rewrite (chat_request_body_ok E _ _ _ _ _ Hok).
  - destruct (Hfail 0 ltac:(lia)) as [e He]. rewrite Nat.add_0_r in He.
    rewrite (chat_request_body_error E _ _ _ _ _ He).
    rewrite (IH k); [cbn; now rewrite <- app_assoc|lia|..].
    + intros j Hj. rewrite log_request_length.
      destruct (Hfail (S j) ltac:(lia)) as [e' He']. exists e'.
      now rewrite <- He', Nat.add_succ_r.
    + rewrite log_request_length. now rewrite <- Hok, Nat.add_succ_r.
Qed.

End Errors.

(** One or two failed attempts are made up for: the answer of the first
    attempt that succeeds is returned, after as many identical requests
    as there were attempts. *)
Theorem chat_request_recovers E messages tools tool_choice r k w :
  k < 3 ->
  (forall j, j < k -> exists e,
     openai_create E (length (openai_log w) + j)
       (ChatRequest messages tools tool_choice) = Raise e) ->
  openai_create E (length (openai_log w) + k)
    (ChatRequest messages tools tool_choice) = Ret r ->
  AgentScrapper.chat_request E messages tools tool_choice w
  = (Ret (Some r),
     set_openai_log
       (openai_log w ++ replicate (S k) (ChatRequest messages tools tool_choice)) w).
Proof. apply chat_request_recovers_gen. Qed.

(** The first attempt fails, the second is answered. *)
Lemma chat_request_recovers_witness :
  AgentScrapper.chat_request
    (Scenario.offline [Raise (ExternalError "openai");
                       Scenario.reply "stop" (PyStr "Done") None])
    [AgentScrapper.user_message "hello"] AgentScrapper.search_tools None
    (Scenario.fresh [])
  = (Ret (Some (mkCompletion
                  [mkChoice "stop" (mkChoiceMessage (PyStr "Done") None)])),
     set_openai_log
       (openai_log (Scenario.fresh [])
        ++ replicate 2 (ChatRequest [AgentScrapper.user_message "hello"]
                                    AgentScrapper.search_tools None))
       (Scenario.fresh [])).
Proof.
  apply (chat_request_recovers
           (Scenario.offline [Raise (ExternalError "openai");
                              Scenario.reply "stop" (PyStr "Done") None])
           [AgentScrapper.user_message "hello"] AgentScrapper.search_tools None
           (mkCompletion [mkChoice "stop" (mkChoiceMessage (PyStr "Done") None)])
           1 (Scenario.fresh [])).
  - lia.
  - intros j Hj. exists (ExternalError "openai").
    destruct j as [|j]; [reflexivity|lia].
  - reflexivity.
Defined.

(** Arguments that do not parse end the run with [JSONDecodeError] before
    the tool name is looked at: nothing is dispatched, known name or not. *)
Theorem malformed_arguments_raise E fuel tools messages w r w1 c cs
    tool_call rest :
  AgentScrapper.chat_request E messages tools None w = (Ret (Some r), w1) ->
  choices r = c :: cs ->
  finish_reason c = "tool_calls" ->
  cm_tool_calls (choice_msg c) = Some (tool_call :: rest) ->
  json_loads E (tc_arguments tool_call) = Raise JSONDecodeError ->
  AgentScrapper.while_running E (S fuel) tools messages w
  = Some (Raise JSONDecodeError, w1).
Proof.
  intros Hq Hc Hf Ht Hj. cbn [AgentScrapper.while_running].
  unfold bind at 1. rewrite Hq. unfold AgentScrapper.turn. rewrite Hc, Hf, Ht.
  rewrite decide_True by reflexivity. unfold bind at 1.
  cbn [AgentScrapper.for_tool_calls]. unfold bind at 1, lift at 1.
  now rewrite Hj.
Qed.

Lemma malformed_arguments_raise_witness :
  AgentScrapper.run
    (Scenario.offline
       [Scenario.reply "tool_calls" PyNone
          (Some [mkToolCall "call_1" "update_data" "{oops"])])
    1 "prompt" "instruction" AgentScrapper.search_tools false
    (Scenario.fresh ["company_founded"])
  = Some (Raise JSONDecodeError,
          log_request
            (ChatRequest
               [AgentScrapper.user_message ("instruction" +:+ " " +:+ "prompt")]
               AgentScrapper.search_tools None)
            (Scenario.fresh ["company_founded"])).
Proof.
  apply (malformed_arguments_raise
           (Scenario.offline
              [Scenario.reply "tool_calls" PyNone
                 (Some [mkToolCall "call_1" "update_data" "{oops"])])
           0 AgentScrapper.search_tools
           [AgentScrapper.user_message ("instruction" +:+ " " +:+ "prompt")]
           (Scenario.fresh ["company_founded"])
           (mkCompletion [mkChoice "tool_calls"
              (mkChoiceMessage PyNone
                 (Some [mkToolCall "call_1" "update_data" "{oops"]))])
           (log_request
              (ChatRequest
                 [AgentScrapper.user_message ("instruction" +:+ " " +:+ "prompt")]
                 AgentScrapper.search_tools None)
              (Scenario.fresh ["company_founded"]))
           (mkChoice "tool_calls"
              (mkChoiceMessage PyNone
                 (Some [mkToolCall "call_1" "update_data" "{oops"])))
           [] (mkToolCall "call_1" "update_data" "{oops") []);
    reflexivity.
Defined.

(** A response the loop cannot read ends the run with an exception: no
    choice at all gives [IndexError]; a finish reason ["tool_calls"] with
    no list of calls gives [TypeError], after the assistant message was
    appended. *)
Theorem unreadable_response_raises E fuel tools messages w r w1 :
  AgentScrapper.chat_request E messages tools None w = (Ret (Some r), w1) ->
  (choices r = [] ->
   AgentScrapper.while_running E (S fuel) tools messages w
   = Some (Raise IndexError, w1))
  /\ (forall c cs,
        choices r = c :: cs ->
        finish_reason c = "tool_calls" ->
        cm_tool_calls (choice_msg c) = None ->
        AgentScrapper.while_running E (S fuel) tools messages w
        = Some (Raise TypeError, w1)).
Proof.
  intros Hq. split.
  - intros Hc. cbn [AgentScrapper.while_running].
    unfold bind at 1. rewrite Hq. unfold AgentScrapper.turn. now rewrite Hc.
  - intros c cs Hc Hf Ht. cbn [AgentScrapper.while_running].
    unfold bind at 1. rewrite Hq. unfold AgentScrapper.turn. rewrite Hc, Hf, Ht.
    now rewrite decide_True by reflexivity.
Qed.

(** The provider answers with no choice at all. *)
Lemma unreadable_response_raises_witness :
  AgentScrapper.run (Scenario.offline [Ret (mkCompletion [])])
    1 "prompt" "instruction" AgentScrapper.search_tools false (Scenario.fresh [])
  = Some (Raise IndexError,
          log_request
            (ChatRequest
               [AgentScrapper.user_message ("instruction" +:+ " " +:+ "prompt")]
               AgentScrapper.search_tools None)
            (Scenario.fresh [])).
Proof.
  apply (proj1 (unreadable_response_raises
                  (Scenario.offline [Ret (mkCompletion [])])
                  0 AgentScrapper.search_tools
                  [AgentScrapper.user_message ("instruction" +:+ " " +:+ "prompt")]
                  (Scenario.fresh []) (mkCompletion [])
                  (log_request
                     (ChatRequest
                        [AgentScrapper.user_message
                           ("instruction" +:+ " " +:+ "prompt")]
                        AgentScrapper.search_tools None)
                     (Scenario.fresh []))
                  eq_refl));
    reflexivity.
Defined.

(** Keyword binding: the argument must be a dict whose keys are exactly
    the parameters; then the values come back, one per parameter. *)
Lemma lookup_all_length params members vs :
  AgentScrapper.lookup_all params members = Some vs -> length vs = length params.
Proof.
  revert vs; induction params as [|p params IH]; intros vs H; cbn in H.
  - now injection H as <-.
  - destruct (assoc p members); [|discriminate].
    destruct (AgentScrapper.lookup_all params members) as [vs'|]; [|discriminate].
    injection H as <-. cbn. now rewrite (IH vs').
Qed.

Lemma assoc_Some_elem key members v :
  assoc key members = Some v -> key ∈ map fst members.
Proof.
  induction members as [|[k x] members IH]; cbn; [discriminate|].
  destruct (decide (k = key)) as [->|]; [left|right; auto].
Qed.

Lemma assoc_None_elem key members :
  assoc key members = None -> key ∉ map fst members.
Proof.
  induction members as [|[k x] members IH]; cbn; [intros _; apply not_elem_of_nil|].
  destruct (decide (k = key)) as [->|Hne]; [discriminate|].
  intros H Hin. apply elem_of_cons in Hin as [->|Hin]; [done|]. now apply IH.
Qed.

Lemma lookup_all_Some params members vs :
  AgentScrapper.lookup_all params members = Some vs ->
  forall p, p ∈ params -> p ∈ map fst members.
Proof.
  revert vs; induction params as [|q params IH]; intros vs H p Hp;
    [by apply elem_of_nil in Hp|].
  cbn in H. destruct (assoc q members) as [v|] eqn:Hq; [|discriminate].
  destruct (AgentScrapper.lookup_all params members) as [vs'|] eqn:Hl; [|discriminate].
  apply elem_of_cons in Hp as [->|Hp]; [by eapply assoc_Some_elem|by eapply IH].
Qed.

Lemma lookup_all_None params members :
  AgentScrapper.lookup_all params members = None ->
  exists p, p ∈ params /\ p ∉ map fst members.
Proof.
  induction params as [|q params IH]; cbn; [discriminate|].
  destruct (assoc q members) as [v|] eqn:Hq.
  - destruct (AgentScrapper.lookup_all params members) as [vs'|]; [discriminate|].
    intros _. destruct IH as (p & Hp & Hn); [done|]. exists p. split; [by right|done].
  - intros _. exists q. split; [left|by apply assoc_None_elem].
Qed.

Lemma forallb_false_elem {A} (f : A -> bool) (l : list A) :
  forallb f l = false -> exists x, x ∈ l /\ f x = false.
Proof.
  induction l as [|x l IH]; cbn; [discriminate|].
  destruct (f x) eqn:Hx; cbn.
  - intros H. destruct (IH H) as (y & Hy & Hf). exists y. split; [by right|done].
  - intros _. exists x. split; [left|done].
Qed.

Lemma bind_kwargs_spec params tool_args :
  match AgentScrapper.bind_kwargs params tool_args with
  | Ret vs =>
      exists members,
        tool_args = JObj members
        /\ length vs = length params
        /\ (forall k, k ∈ map fst members <-> k ∈ params)
  | Raise e =>
      e = TypeError
      /\ forall members,
           tool_args = JObj members ->
           exists k, (k ∈ map fst members /\ k ∉ params)
                     \/ (k ∈ params /\ k ∉ map fst members)
  end.
Proof.
  unfold AgentScrapper.bind_kwargs.
  destruct tool_args as [| | | | |members];
    try (split; [reflexivity|intros ? [=]]).
  destruct (forallb _ members) eqn:Hall.
  - destruct (AgentScrapper.lookup_all params members) as [vs|] eqn:Hl.
    + exists members. split; [reflexivity|].
      split; [by eapply lookup_all_length|].
      intros k. split; [|by eapply lookup_all_Some].
      intros Hk. apply list_elem_of_fmap in Hk as ([k' x] & -> & Hin).
      rewrite forallb_forall in Hall.
      apply list_elem_of_In in Hin. specialize (Hall _ Hin).
      now apply bool_decide_eq_true in Hall.
    + split; [reflexivity|]. intros ms [= <-].
      destruct (lookup_all_None _ _ Hl) as (p & Hp & Hn). exists p. now right.
  - split; [reflexivity|]. intros ms [= <-].
    destruct (forallb_false_elem _ _ Hall) as ([k x] & Hin & Hf).
    apply bool_decide_eq_false in Hf. exists k. left. split; [|exact Hf].
    apply list_elem_of_fmap. exists (k, x). split; [reflexivity|exact Hin].
Qed.

(** A tool is reached only with arguments that are a dict whose keys are
    exactly its parameters.  Any other argument (not a dict, a key too
    many, a parameter missing) makes the call raise [TypeError] before
    the tool runs: no state changes. *)
Theorem call_tool_bad_arguments E t tool_args w :
  (forall members,
     tool_args = JObj members ->
     exists k, (k ∈ map fst members /\ k ∉ AgentScrapper.parameters t)
               \/ (k ∈ AgentScrapper.parameters t /\ k ∉ map fst members)) ->
  AgentScrapper.call_tool E t tool_args w = (Raise TypeError, w).
Proof.
  intros H. unfold AgentScrapper.call_tool, bind, lift.
  pose proof (bind_kwargs_spec (AgentScrapper.parameters t) tool_args) as Hs.
  destruct (AgentScrapper.bind_kwargs _ _) as [vs|e].
  - destruct Hs as (members & -> & _ & Hkeys).
    destruct (H members eq_refl) as [k [[Hin Hn]|[Hin Hn]]];
      exfalso; apply Hn; now apply Hkeys.
  - destruct Hs as [-> _]. reflexivity.
Qed.

(** [update_data] called with the keyword [data] instead of
    [data_to_update]. *)
Lemma call_tool_bad_arguments_witness :
  AgentScrapper.call_tool (Scenario.offline []) AgentScrapper.FireCrawlUpdateData
    (JObj [("data", JArr [])]) (Scenario.fresh ["company_founded"])
  = (Raise TypeError, Scenario.fresh ["company_founded"]).
Proof.
  apply (call_tool_bad_arguments (Scenario.offline [])
           AgentScrapper.FireCrawlUpdateData (JObj [("data", JArr [])])).
  intros members [= <-]. exists "data". left. cbn.
  split; [left|]. intros Hin. apply list_elem_of_singleton in Hin. discriminate.
Defined.

(** * The compactor: short histories and repeated messages *)

Section CompactorEdges.
Import AgentScrapper.
Variable E : env.

Lemma index_of_take x l i :
  index_of x l = Some i -> (x ∉ take i l) /\ l !! i = Some x.
Proof.
  revert i; induction l as [|y l IH]; intros i H; [discriminate|].
  cbn in H. destruct (decide (y = x)) as [->|Hne].
  - injection H as <-. split; [apply not_elem_of_nil|reflexivity].
  - destruct (index_of x l) as [j|] eqn:Hj; [|discriminate].
    injection H as <-. destruct (IH j eq_refl) as [Hn Hl].
    split; [|exact Hl]. cbn. intros Hin.
    apply elem_of_cons in Hin as [->|Hin]; [done|by apply Hn].
Qed.

Lemma index_of_first x l i :
  l !! i = Some x -> exists j, index_of x l = Some j /\ j <= i.
Proof.
  revert i; induction l as [|y l IH]; intros i H; [discriminate|].
  cbn. destruct (decide (y = x)) as [->|Hne]; [exists 0; split; [done|lia]|].
  destruct i as [|i]; [cbn in H; congruence|].
  destruct (IH i H) as (j & -> & Hj). exists (S j). split; [done|lia].
Qed.

Lemma index_of_fresh x l i :
  l !! i = Some x -> x ∉ take i l -> index_of x l = Some i.
Proof.
  revert i; induction l as [|y l IH]; intros i H Hn; [discriminate|].
  destruct i as [|i].
  - cbn in *. injection H as ->. now rewrite decide_True.
  - cbn in *. rewrite decide_False.
    + now rewrite (IH i H) by (intros Hin; apply Hn; by right).
    + intros ->. apply Hn. left.
Qed.

End CompactorEdges.

(** What the summary request covers, once compaction has started: the
    messages before the first message equal to the oldest retained one.
    That first occurrence is at the start of the retained window when no
    earlier message equals it; when one does, the messages from there to
    the window are neither summarised nor retained. *)
Theorem summary_request_covers E (messages : list message) oldest latest w :
  compaction_starts E messages ->
  drop (length messages - 12) messages = oldest :: latest ->
  exists j,
    j <= length messages - 12
    /\ messages !! j = Some oldest
    /\ (oldest ∉ take j messages)
    /\ openai_log (snd (AgentScrapper.optimise_messages E messages w))
       = openai_log w ++ [SummaryRequest (take j messages)]
    /\ ((oldest ∉ take (length messages - 12) messages) ->
        j = length messages - 12).
Proof.
  intros Hs Hd.
  assert (messages <> []) as Hne by (intros ->; discriminate).
  rewrite (optimise_messages_triggered E _ _ Hne Hs). cbn [snd compacted].
  unfold early_messages. rewrite Hd.
  assert (messages !! (length messages - 12) = Some oldest) as Hl.
  { rewrite <- (Nat.add_0_r (length messages - 12)), <- lookup_drop, Hd.
    reflexivity. }
  destruct (index_of_first _ _ _ Hl) as (j & Hj & Hle). rewrite Hj. cbn.
  destruct (index_of_take _ _ _ Hj) as [Hn Hlj].
  exists j. repeat split; try done.
  intros Hfresh. rewrite (index_of_fresh _ _ _ Hl Hfresh) in Hj.
  now injection Hj as <-.
Qed.

(** In a history of fourteen messages whose third repeats the first, the
    first two are neither summarised nor retained: the request covers
    no message at all. *)
Lemma summary_request_covers_witness :
  exists j,
    j <= length Scenario.echo_history - 12
    /\ Scenario.echo_history !! j = Some (AgentScrapper.user_message "A")
    /\ (AgentScrapper.user_message "A" ∉ take j Scenario.echo_history)
    /\ openai_log
         (snd (AgentScrapper.optimise_messages (Scenario.offline [])
                 Scenario.echo_history (Scenario.fresh [])))
       = openai_log (Scenario.fresh [])
         ++ [SummaryRequest (take j Scenario.echo_history)]
    /\ ((AgentScrapper.user_message "A"
         ∉ take (length Scenario.echo_history - 12) Scenario.echo_history) ->
        j = length Scenario.echo_history - 12).
Proof.
  apply (summary_request_covers (Scenario.offline []) Scenario.echo_history
           (AgentScrapper.user_message "A") (tail (Scenario.history 12))
           (Scenario.fresh [])).
  - split; [eexists; reflexivity|]. split.
    + right. exists 14000%N. split; [reflexivity|lia].
    + exists 12000%N. reflexivity.
  - reflexivity.
Defined.

Example summary_skips_repeated :
  openai_log
    (snd (AgentScrapper.optimise_messages (Scenario.offline [])
            Scenario.echo_history (Scenario.fresh [])))
  = [SummaryRequest []].
Proof. reflexivity. Qed.

(** A history of at most 12 messages that is over the token budget is not
    shortened: nothing is summarised away, and a successful compaction
    returns all of it behind a new system message. *)
Theorem short_history_grows E messages w r c cs :
  messages <> [] ->
  length messages <= 12 ->
  over_budget E messages ->
  openai_create E (length (openai_log w)) (SummaryRequest []) = Ret r ->
  choices r = c :: cs ->
  early_messages messages = []
  /\ exists updated,
       AgentScrapper.optimise_messages E messages w
       = (Ret (updated :: messages), log_request (SummaryRequest []) w).
Proof.
  intros Hne Hlen Hob Ho Hc.
  assert (early_messages messages = []) as He.
  { unfold early_messages. replace (length messages - 12) with 0 by lia.
    destruct messages as [|m ms]; [done|]. cbn. now rewrite decide_True. }
  split; [exact He|].
  assert (compaction_starts E messages) as Hs.
  { (* the history is short, so the token count exceeded: the tokenizer
       returned on the history, and the retained messages are the history *)
    destruct Hob as [Hl|(n & Hn & Hbig)]; [lia|].
    split; [|split; [right; eauto|]].
    - unfold token_estimate in Hn.
      destruct (encoding_for_model E _) as [encoding|e]; [eauto|discriminate].
    - replace (length messages - 12) with 0 by lia. cbn [drop]. eauto. }
  rewrite (optimise_messages_triggered E _ _ Hne Hs). unfold compacted.
  rewrite He, Ho, Hc.
  replace (length messages - 12) with 0 by lia. cbn [drop]. eauto.
Qed.

Lemma short_history_grows_witness :
  early_messages (Scenario.history 11) = []
  /\ exists updated,
       AgentScrapper.optimise_messages
         (Scenario.offline [Scenario.reply "stop" (PyStr "nothing yet") None])
         (Scenario.history 11) (Scenario.fresh [])
       = (Ret (updated :: Scenario.history 11),
          log_request (SummaryRequest []) (Scenario.fresh [])).
Proof.
  apply (short_history_grows
           (Scenario.offline [Scenario.reply "stop" (PyStr "nothing yet") None])
           (Scenario.history 11) (Scenario.fresh [])
           (mkCompletion [mkChoice "stop" (mkChoiceMessage (PyStr "nothing yet") None)])
           (mkChoice "stop" (mkChoiceMessage (PyStr "nothing yet") None)) []).
  - discriminate.
  - cbn. lia.
  - right. exists 11000%N. split; [reflexivity|lia].
  - reflexivity.
  - reflexivity.
Defined.

(** On any non-empty history [optimise_messages] ends in one of two ways.
    It returns a history: then it has made at most one request (a summary
    request), keeps the last message last and returns no more than one
    message beyond what it was given; no failure of the provider makes it
    raise.  Or it raises what the tokenizer raised at lines 217-221 (a
    model name it does not know, a text it refuses), before any request
    and with the state as it was. *)
Theorem optimise_messages_safe E messages w :
  messages <> [] ->
  (exists messages' w',
     AgentScrapper.optimise_messages E messages w = (Ret messages', w')
     /\ last messages' = last messages
     /\ length messages' <= S (length messages)
     /\ (w' = w \/ w' = log_request (SummaryRequest (early_messages messages)) w))
  \/ (exists e,
        AgentScrapper.optimise_messages E messages w = (Raise e, w)
        /\ tokenizer_raises E messages e).
Proof.
  intros Hne.
  destruct (optimise_messages_cases E messages w Hne)
    as [[_ H]|[(_ & _ & H)|(e & He & H)]].
  - left. rewrite H. unfold compacted.
    destruct (openai_create E _ _) as [r|e];
      [|eexists _, _; repeat split; [lia|by right]].
    destruct (choices r) as [|c cs];
      [eexists _, _; repeat split; [lia|by right]|].
    eexists _, _. split; [reflexivity|].
    destruct (latest_nonempty messages Hne) as (oldest & rest & index & Hd & _).
    split; [|split; [|by right]].
    + rewrite <- (last_drop messages (length messages - 12)).
      * rewrite Hd. reflexivity.
      * destruct messages; [done|cbn; lia].
    + cbn. rewrite length_drop. lia.
  - left. rewrite H. eexists _, _. repeat split; [lia|by left].
  - right. exists e. split; [exact H|exact He].
Qed.

Lemma optimise_messages_safe_witness :
  (exists messages' w',
     AgentScrapper.optimise_messages
       (Scenario.offline [Scenario.reply "stop" (PyStr "two pages read") None])
       Scenario.echo_history (Scenario.fresh [])
     = (Ret messages', w')
     /\ last messages' = last Scenario.echo_history
     /\ length messages' <= S (length Scenario.echo_history)
     /\ (w' = Scenario.fresh []
         \/ w' = log_request (SummaryRequest (early_messages Scenario.echo_history))
                             (Scenario.fresh [])))
  \/ (exists e,
        AgentScrapper.optimise_messages
          (Scenario.offline [Scenario.reply "stop" (PyStr "two pages read") None])
          Scenario.echo_history (Scenario.fresh [])
        = (Raise e, Scenario.fresh [])
        /\ tokenizer_raises
             (Scenario.offline [Scenario.reply "stop" (PyStr "two pages read") None])
             Scenario.echo_history e).
Proof.
  apply (optimise_messages_safe
           (Scenario.offline [Scenario.reply "stop" (PyStr "two pages read") None])
           Scenario.echo_history (Scenario.fresh [])).
  discriminate.
Defined.

(** A text the tokenizer refuses ends [optimise_messages] before the
    [try] of line 240 is entered: the exception leaves the method, no
    summary request is made and the state is as it was.  So does a model
    name the tokenizer does not know. *)
Theorem tokenizer_failure_raises E messages w e :
  messages <> [] ->
  tokenizer_raises E messages e ->
  AgentScrapper.optimise_messages E messages w = (Raise e, w).
Proof.
  intros Hne [[Hlen He]|[Hob He]];
    destruct (optimise_messages_cases E messages w Hne)
      as [[(_ & Hob' & (k & Hk)) _]|[(Hlen' & (n & Hn & Hle) & _)
                                    |(e' & [[Hlen' He']|[Hob' He']] & H)]];
    try congruence.
  - destruct Hob' as [Hl|(n & Hn & _)]; [lia|congruence].
  - exfalso. destruct Hob' as [Hl|(n & Hn & _)]; [lia|congruence].
  - exfalso. exact (over_budget_idle E _ _ Hob Hlen' Hn Hle).
  - exfalso. destruct Hob as [Hl|(n & Hn & _)]; [lia|congruence].
Qed.

(** Twenty-five messages of which the last holds [<|endoftext|>]: the
    count of the retained twelve raises [ValueError]. *)
Lemma tokenizer_failure_raises_witness :
  AgentScrapper.optimise_messages Scenario.strict
    (Scenario.history 24 ++ [AgentScrapper.user_message Scenario.special])
    (Scenario.fresh [])
  = (Raise ValueError, Scenario.fresh []).
Proof.
  apply (tokenizer_failure_raises Scenario.strict
           (Scenario.history 24 ++ [AgentScrapper.user_message Scenario.special])
           (Scenario.fresh []) ValueError).
  - discriminate.
  - right. split; [left; cbn; lia|reflexivity].
Defined.

(** * The fact store: pending names and malformed arguments *)

Section FactStoreEdges.
Import FireCrawlTools.
Variable E : env.




Lemma for_each_data_empty_store items :
  for_each_data items [] = (Ret tt, []).
Proof. induction items as [|data items IH]; [reflexivity|exact IH]. Qed.

Lemma update_matching_partial data n v e : forall pre obj post,
  getitem data "name" = Ret (JStr n) ->
  getitem data "value" = Ret v ->
  getitem data "reference" = Raise e ->
  (forall o, o ∈ pre -> dp_name o <> n) ->
  dp_name obj = n ->
  update_matching data (pre ++ obj :: post)
  = (Raise e, pre ++ mkDataPoint n v (dp_reference obj) :: post).
Proof.
  intros pre obj post Hn Hv Hr Hpre Hobj.
  induction pre as [|o pre IH]; cbn [app update_matching]; rewrite Hn.
  - unfold str_eq. rewrite bool_decide_eq_true_2 by exact Hobj.
    rewrite Hv, Hr. now rewrite Hobj.
  - unfold str_eq. rewrite bool_decide_eq_false_2 by (apply Hpre; left).
    rewrite IH; [reflexivity|]. intros o' Ho'. apply Hpre. now right.
Qed.

(** The records of one call are processed one after the other; the first
    that raises ends the call. *)
Lemma for_each_data_app earlier later : forall objs,
  for_each_data (earlier ++ later) objs
  = match for_each_data earlier objs with
    | (Ret _, objs1) => for_each_data later objs1
    | (Raise e, objs1) => (Raise e, objs1)
    end.
Proof.
  induction earlier as [|data earlier IH]; intros objs; [reflexivity|].
  cbn [app for_each_data].
  destruct (update_matching data objs) as [[[]|e] objs1]; [apply IH|reflexivity].
Qed.

End FactStoreEdges.

(** A fresh store has every requested name pending, in the order given. *)
Theorem fresh_store_all_pending (names : list string) log links jina :
  FireCrawlTools.get_data_points_to_search
    (mkWorld log (FireCrawlTools.init_data_points names) links jina)
  = names.
Proof.
  unfold FireCrawlTools.get_data_points_to_search,
    FireCrawlTools.init_data_points. cbn [data_points].
  induction names as [|n names IH]; [reflexivity|].
  cbn [map]. rewrite filter_cons, decide_True by reflexivity.
  cbn [map dp_name]. now rewrite IH.
Qed.






(** With no data point in the store the records are never looked at: any
    argument that can be iterated over gets the confirmation string and
    changes nothing. *)
Theorem update_data_empty_store E data_to_update items w :
  data_points w = [] ->
  py_iter data_to_update = Ret items ->
  FireCrawlTools.update_data E data_to_update w
  = (Ret (PyStr ("updated data: " +:+ py_str E data_to_update)), w).
Proof.
  intros Hd Hi. unfold FireCrawlTools.update_data.
  rewrite Hi, Hd, for_each_data_empty_store.
  f_equal. destruct w. cbn in *. now subst.
Qed.

(** A list of numbers is accepted by an empty store. *)
Lemma update_data_empty_store_witness :
  FireCrawlTools.update_data (Scenario.offline [])
    (JArr [JNum 1; JNum 2]) (Scenario.fresh [])
  = (Ret (PyStr ("updated data: "
                 +:+ py_str (Scenario.offline []) (JArr [JNum 1; JNum 2]))),
     Scenario.fresh []).
Proof.
  apply (update_data_empty_store (Scenario.offline []) (JArr [JNum 1; JNum 2])
           [JNum 1; JNum 2] (Scenario.fresh []));
    reflexivity.
Defined.

(** A record with a name and a value but no reference, anywhere in the
    argument, raises [KeyError] half way.  Relative to the data points as
    the earlier records of the call left them, the first data point of
    that name has the new value already and still its reference, every
    other data point is as it was, the later records are not looked at,
    and the call returns nothing. *)
Theorem update_data_partial_write E n v (members : list (string * json))
    (earlier later : list json) pre obj post w :
  assoc "name" members = Some (JStr n) ->
  assoc "value" members = Some v ->
  assoc "reference" members = None ->
  FireCrawlTools.for_each_data earlier (data_points w)
  = (Ret tt, pre ++ obj :: post) ->
  (forall o, o ∈ pre -> dp_name o <> n) ->
  dp_name obj = n ->
  FireCrawlTools.update_data E (JArr (earlier ++ JObj members :: later)) w
  = (Raise (KeyError "reference"),
     set_data_points (pre ++ mkDataPoint n v (dp_reference obj) :: post) w).
Proof.
  intros Hn Hv Hr Hd Hpre Hobj. unfold FireCrawlTools.update_data.
  cbn [py_iter]. rewrite for_each_data_app, Hd.
  cbn [FireCrawlTools.for_each_data].
  rewrite (update_matching_partial (JObj members) n v (KeyError "reference"));
    try done; cbn; by rewrite ?Hn, ?Hv, ?Hr.
Qed.

(** The first record stores the location; the second, for
    ["company_founded"], has no reference; a third is never looked at. *)
Lemma update_data_partial_write_witness :
  FireCrawlTools.update_data (Scenario.offline [])
    (JArr ([record_json (mkFact "company_location" (JStr "Paris")
                                (JStr "https://x.test"))]
           ++ JObj [("name", JStr "company_founded"); ("value", JStr "2019")]
           :: [record_json (mkFact "company_location" (JStr "Lyon")
                                   (JStr "https://y.test"))]))
    (Scenario.fresh ["company_location"; "company_founded"])
  = (Raise (KeyError "reference"),
     set_data_points
       ([mkDataPoint "company_location" (JStr "Paris") (JStr "https://x.test")]
        ++ mkDataPoint "company_founded" (JStr "2019") JNull :: [])
       (Scenario.fresh ["company_location"; "company_founded"])).
Proof.
  apply (update_data_partial_write (Scenario.offline []) "company_founded"
           (JStr "2019")
           [("name", JStr "company_founded"); ("value", JStr "2019")]
           [record_json (mkFact "company_location" (JStr "Paris")
                                (JStr "https://x.test"))]
           [record_json (mkFact "company_location" (JStr "Lyon")
                                (JStr "https://y.test"))]
           [mkDataPoint "company_location" (JStr "Paris") (JStr "https://x.test")]
           (mkDataPoint "company_founded" JNull JNull) []
           (Scenario.fresh ["company_location"; "company_founded"]));
    try reflexivity.
  intros o Ho. apply list_elem_of_singleton in Ho. subst o. discriminate.
Defined.

(** * Tools through the dispatch table, and [print] *)

(** A ["scrape"] call whose page can be fetched: the page text becomes
    the content of one tool message under the call's id, the link goes to
    the list of [JinaAiTools], and nothing else changes. *)
Theorem scrape_call_appends_page E tool_call u text messages w :
  tc_name tool_call = "scrape" ->
  json_loads E (tc_arguments tool_call) = Ret (JObj [("url", JStr u)]) ->
  requests_get E ("https://r.jina.ai/" +:+ u) = Ret text ->
  AgentScrapper.for_tool_calls E [tool_call] messages w
  = (Ret (AgentScrapper.Go
            (messages
             ++ [AgentScrapper.tool_message (tc_id tool_call) "scrape"
                   (PyStr text)])),
     set_jina_links (jina_links_scrapped w ++ [JStr u]) w).
Proof.
  intros Hn Hj Hg. cbn [AgentScrapper.for_tool_calls].
  unfold bind at 1, lift at 1. rewrite Hj.
  unfold bind at 1, lift at 1. rewrite Hn.
  change (AgentScrapper.subscript AgentScrapper.get_tools_list "scrape")
    with (Ret AgentScrapper.JinaScrape).
  cbn [AgentScrapper.truthy].
  assert (AgentScrapper.call_tool E AgentScrapper.JinaScrape
            (JObj [("url", JStr u)]) w
          = (Ret (PyStr text), set_jina_links (jina_links_scrapped w ++ [JStr u]) w))
    as Hcall.
  { assert (AgentScrapper.bind_kwargs
              (AgentScrapper.parameters AgentScrapper.JinaScrape)
              (JObj [("url", JStr u)]) = Ret [JStr u]) as Hk by reflexivity.
    unfold AgentScrapper.call_tool, bind, lift. rewrite Hk.
    unfold JinaAiTools.scrape. now rewrite Hg. }
  unfold bind. now rewrite Hcall.
Qed.

Lemma scrape_call_appends_page_witness :
  AgentScrapper.for_tool_calls (Scenario.online [])
    [mkToolCall "call_1" "scrape" Scenario.url_arguments] []
    (Scenario.fresh [])
  = (Ret (AgentScrapper.Go
            ([] ++ [AgentScrapper.tool_message "call_1" "scrape" (PyStr "# page")])),
     set_jina_links
       (jina_links_scrapped (Scenario.fresh []) ++ [JStr "https://x.test"])
       (Scenario.fresh [])).
Proof.
  apply (scrape_call_appends_page (Scenario.online [])
           (mkToolCall "call_1" "scrape" Scenario.url_arguments)
           "https://x.test" "# page" [] (Scenario.fresh []));
    reflexivity.
Defined.



(** [print] shows the tool calls of a message exactly when the message is
    an assistant's and its list of calls is not empty; a missing key,
    [None] and the empty list all show the content, as every other role
    does.  The colour is white exactly for a role outside the four of
    the table. *)
Theorem print_spec (m : message) :
  let '(r, body, color) := AgentScrapper.print m in
  r = role m
  /\ (forall tcs,
        body = AgentScrapper.ShowToolCalls tcs
        <-> role m = "assistant" /\ tool_calls m = Some (Some tcs) /\ tcs <> [])
  /\ (forall c, body = AgentScrapper.ShowContent c -> c = content m)
  /\ (color = "white"
      <-> role m ∉ ["system"; "user"; "assistant"; "tool"]).
Proof.
  unfold AgentScrapper.print. cbv zeta.
  split; [reflexivity|]. split; [|split].
  - intros tcs. destruct (decide (role m = "assistant")) as [Hr|Hr].
    + destruct (tool_calls m) as [[[|tc l]|]|]; split;
        try (intros [= <-]; done); try (intros (_ & [=] & _); done).
      * intros (_ & [= <-] & Hne). done.
      * intros (_ & [= <-] & _). reflexivity.
    + split; [discriminate|]. intros (Hr' & _). done.
  - intros c. destruct (decide (role m = "assistant")).
    + destruct (tool_calls m) as [[[|tc l]|]|]; intros [=]; done.
    + intros [=]; done.
  - unfold AgentScrapper.role_to_color.
    destruct (decide (role m = "system")) as [->|H1];
      [split; [discriminate|intros H; exfalso; apply H; set_solver]|].
    destruct (decide (role m = "user")) as [->|H2];
      [split; [discriminate|intros H; exfalso; apply H; set_solver]|].
    destruct (decide (role m = "assistant")) as [->|H3];
      [split; [discriminate|intros H; exfalso; apply H; set_solver]|].
    destruct (decide (role m = "tool")) as [->|H4];
      [split; [discriminate|intros H; exfalso; apply H; set_solver]|].
    rewrite !lookup_insert_ne, lookup_singleton_ne by congruence.
    split; [|reflexivity]. intros _ Hin.
    repeat (apply elem_of_cons in Hin as [?|Hin]; [done|]).
    by apply elem_of_nil in Hin.
Qed.
